(** * seq2seq_model.py: the sequence-to-sequence OIE training script

    A shallow embedding of [supervised-oie/src/rnn/seq2seq_model.py].
    The script is glue around third-party libraries (keras, seq2seq, numpy,
    pandas, docopt, json, logging).  The embedding keeps the script's own
    control flow, name resolution, attribute accesses and call arities as
    they are written, threads the process state (random generator, logging
    level, call trace) explicitly, and takes the libraries as a record of
    functions. *)

From Stdlib Require Import Ascii String ZArith Lia.
From stdpp Require Import base strings list gmap pretty.

Set Warnings "-register-all".

Local Open Scope Z_scope.
Local Open Scope string_scope.

(** ** Python values *)

(** Values that [json.load] can produce, plus tuples.  A float is identified
    with its [repr], the shortest decimal text that reads back as the same
    float (so ["0.1"], ["1e+22"], ["nan"]); strings hold ASCII text. *)
Inductive PyVal : Type :=
  | PyNone
  | PyBool (b : bool)
  | PyInt (z : Z)
  | PyFloat (repr : string)
  | PyStr (s : string)
  | PyList (l : list PyVal)
  | PyTuple (l : list PyVal)
  | PyDict (kv : list (string * PyVal)).

Module Py.

Definition squote : ascii := "039"%char.
Definition dquote : ascii := "034"%char.
Definition backslash : ascii := "092"%char.

Fixpoint contains (c : ascii) (s : string) : bool :=
  match s with
  | EmptyString => false
  | String d s' => if Ascii.eqb c d then true else contains c s'
  end.

Definition hex_digit (n : N) : ascii :=
  match n with
  | 0 => "0" | 1 => "1" | 2 => "2" | 3 => "3" | 4 => "4" | 5 => "5"
  | 6 => "6" | 7 => "7" | 8 => "8" | 9 => "9" | 10 => "a" | 11 => "b"
  | 12 => "c" | 13 => "d" | 14 => "e" | _ => "f"
  end%N%char.

(** One character of [repr] of a string whose chosen quote is [q]. *)
Definition repr_char (q c : ascii) : string :=
  let n := N_of_ascii c in
  if Ascii.eqb c q || Ascii.eqb c backslash then String backslash (String c "")
  else if (n =? 9)%N then String backslash "t"
  else if (n =? 10)%N then String backslash "n"
  else if (n =? 13)%N then String backslash "r"
  else if (n <? 32)%N || (n =? 127)%N then
    String backslash (String "x" (String (hex_digit (n / 16)) (String (hex_digit (n mod 16)) "")))
  else String c "".

Fixpoint repr_chars (q : ascii) (s : string) : string :=
  match s with
  | EmptyString => ""
  | String c s' => repr_char q c ++ repr_chars q s'
  end.

(** [repr] of a string: single quotes, unless the text has a single quote
    and no double quote. *)
Definition repr_str (s : string) : string :=
  let q := if contains squote s && negb (contains dquote s) then dquote else squote in
  String q (repr_chars q s ++ String q "").

Fixpoint join (sep : string) (l : list string) : string :=
  match l with
  | [] => ""
  | [x] => x
  | x :: l' => x ++ sep ++ join sep l'
  end.

Fixpoint repr (v : PyVal) : string :=
  match v with
  | PyNone => "None"
  | PyBool true => "True"
  | PyBool false => "False"
  | PyInt z => pretty z
  | PyFloat r => r
  | PyStr s => repr_str s
  | PyList l => "[" ++ join ", " (map repr l) ++ "]"
  | PyTuple [x] => "(" ++ repr x ++ ",)"
  | PyTuple l => "(" ++ join ", " (map repr l) ++ ")"
  | PyDict kv =>
      "{" ++ join ", " (map (λ p, repr_str (fst p) ++ ": " ++ repr (snd p)) kv) ++ "}"
  end.

(** The builtin [str]: the text itself for a string, [repr] otherwise. *)
Definition str (v : PyVal) : string :=
  match v with
  | PyStr s => s
  | _ => repr v
  end.

(** Truth value testing, as [if v] does it. *)
Definition truthy (v : PyVal) : bool :=
  match v with
  | PyNone => false
  | PyBool b => b
  | PyInt z => negb (z =? 0)%Z
  | PyFloat r => negb ((r =? "0.0") || (r =? "-0.0"))
  | PyStr s => negb (s =? "")
  | PyList l | PyTuple l => negb (Nat.eqb (length l) 0)
  | PyDict kv => negb (Nat.eqb (length kv) 0)
  end.

(** ['arg{}'.format(i)] for the integers of [range(n)]. *)
Definition range (n : nat) : list Z := map Z.of_nat (seq 0 n).

End Py.

(** ** Exceptions, events and the process state *)

Inductive Exn : Type :=
  | KeyError (key : string)
  | NameError (name : string)
  | AttributeError (attr : string)
  | TypeError (msg : string)
  | ValueError (msg : string)
  | IOError (path : string)
  | ParserError (expected saw : nat)
  | SystemExit (usage : string)
  | LibraryError (origin : string) (msg : string).

(** Calls that leave the script, in the order they are made. *)
Inductive Event : Type :=
  | EvDocopt (argv : list string)
  | EvBasicConfig (level : Z)
  | EvLog (msg : string)
  | EvOpen (path : string)
  | EvJsonLoad
  | EvReadCsv (path sep : string) (names : list string)
  | EvGlove (path : PyVal)
  | EvSeed (seed : PyVal)
  | EvNew (cls : string) (kwargs : list (string * PyVal))
  | EvCompile (loss optimizer : PyVal)
  | EvSummary (text : string)
  | EvFit (batch_size nb_epoch : PyVal) (callbacks : nat).

(** Levels of the [logging] module. *)
Definition DEBUG : Z := 10.
Definition INFO : Z := 20.
Definition WARNING : Z := 30.

Section Process.

(** The generator state of [numpy.random] is the library's own. *)
Context {Rng : Type}.

Record World : Type := mkWorld {
  rng : Rng;                      (* state of the process-wide generator *)
  urandom : Rng;                  (* the state fresh OS entropy would give *)
  files : gmap string string;     (* path to file content *)
  log_level : Z;                  (* level of the root logger *)
  trace : list Event              (* calls made so far, oldest first *)
}.

(** State and exceptions: a raise keeps the effects made before it. *)
Definition M (A : Type) : Type := World → (Exn + A) * World.

Definition ret {A} (a : A) : M A := λ w, (inr a, w).

Definition raise {A} (e : Exn) : M A := λ w, (inl e, w).

Definition bind {A B} (m : M A) (k : A → M B) : M B :=
  λ w, match m w with
       | (inl e, w') => (inl e, w')
       | (inr a, w') => k a w'
       end.

Definition lift {A} (r : Exn + A) : M A := λ w, (r, w).

Definition emit (e : Event) : M unit :=
  λ w, (inr tt, mkWorld (rng w) (urandom w) (files w) (log_level w) (trace w ++ [e])).

Definition get_rng : M Rng := λ w, (inr (rng w), w).

Definition put_rng (r : Rng) : M unit :=
  λ w, (inr tt, mkWorld r (urandom w) (files w) (log_level w) (trace w)).

Definition get_urandom : M Rng := λ w, (inr (urandom w), w).

Definition get_files : M (gmap string string) := λ w, (inr (files w), w).

Definition get_level : M Z := λ w, (inr (log_level w), w).

Definition put_level (l : Z) : M unit :=
  λ w, (inr tt, mkWorld (rng w) (urandom w) (files w) l (trace w)).

End Process.

Arguments World : clear implicits.
Arguments M : clear implicits.

Declare Scope py_scope.
Delimit Scope py_scope with py.
Notation "x <- c ;; k" := (bind c (λ x, k))
  (at level 100, c at next level, right associativity) : py_scope.
Notation "c ;; k" := (bind c (λ _, k))
  (at level 100, right associativity) : py_scope.

Local Open Scope py_scope.

(** ** Objects of the libraries *)

(** A loaded [Glove] table; the script reads only its [dim] attribute. *)
Record Emb : Type := mkEmb { emb_fn : string; dim : Z }.

(** A pandas table, row by row.  A cell is [None] for a missing value
    ([NaN]) and otherwise the value the reader has made of a field, a
    number, a boolean or a string; [index] holds the leading cells pandas
    takes as row labels. *)
Record DataFrame : Type := mkFrame {
  columns : list string;
  index : list (list (option PyVal));
  rows : list (list (option PyVal))
}.

(** What [docopt] returns for the usage text of the script. *)
Record CliArgs : Type := mkCli {
  cli_train : string;
  cli_dev : string;
  cli_test : string;
  cli_hyperparams : string;
  cli_saveto : string;
  cli_v : bool
}.

Definition cli_dict (a : CliArgs) : PyVal :=
  PyDict [("--dev", PyStr (cli_dev a)); ("--hyperparams", PyStr (cli_hyperparams a));
          ("--saveto", PyStr (cli_saveto a)); ("--test", PyStr (cli_test a));
          ("--train", PyStr (cli_train a)); ("-v", PyBool (cli_v a))].

Inductive Engine : Type := EngineC | EnginePython.

(** The module docstring, which [docopt] takes as the usage text. *)
Definition __doc__ : string :=
  " Usage:
    seq2seq_model --train=TRAIN_FN --dev=DEV_FN --test=TEST_FN --hyperparams=MODEL_JSON --saveto=MODEL_DIR [-v]

Train a seq2seq OIE model.

Parameters:
  train                The train file
  dev                  The development file
  test                 The test file
  hyperparams          Json paramters to init model
  saveto               Where to store the trained model
  v                    Verbose
".

Section Script.

Context {Model Rng : Type}.

(** What an attribute or a variable of the script can hold. *)
Inductive Value : Type :=
  | VPy (v : PyVal)
  | VDict (d : gmap string PyVal)
  | VEmb (e : Emb)
  | VModel (m : Model)
  | VFrame (df : DataFrame)
  | VGlobal (name : string).

(** An instance of [Seq2seq_OIE] is its attribute dictionary. *)
Definition Instance : Type := gmap string Value.

Inductive Local : Type :=
  | LInst (o : Instance)
  | LVal (v : Value).

Inductive Callback : Type :=
  | LambdaCallback (on_epoch_end : PyVal → PyVal → M Rng unit)
  | ModelCheckpoint (filepath : string) (verbose : Z) (save_best_only : bool).

(** The libraries the script calls.  A constructor of a network may draw
    from the generator; seeding with a value other than [None] gives a
    state that depends on the seed alone, or raises.  [read_rows engine sep
    text] is the tokenizer of the table reader: it cuts the text of a file
    into rows of fields (line ends, quoting and delimiters that are regular
    expressions are its own) or raises a parse error.  [infer_cell column
    field] is the reader's conversion of a field, given the fields of its
    column: [None] when the field counts as missing (empty, [NA] and the
    like), a number or a boolean when the column holds nothing else, the
    text otherwise. *)
Record Lib : Type := mkLib {
  Glove : gmap string string → PyVal → Exn + Emb;
  seed_state : PyVal → Exn + Rng;
  random_sample : Rng → Z * Rng;
  AttentionSeq2Seq : list (string * PyVal) → Rng → Exn + (Model * Rng);
  Seq2Seq : list (string * PyVal) → Rng → Exn + (Model * Rng);
  model_compile : Model → PyVal → PyVal → Exn + Model;
  model_summary : Model → string;
  model_predict : Model → Value → Exn + Value;
  model_fit : Model → Value → Value → PyVal → PyVal → Value * Value →
              list Callback → Rng → Exn + (Model * Rng);
  docopt : string → list string → Exn + CliArgs;
  json_loads : string → Exn + PyVal;
  pformat : PyVal → string;
  read_rows : Engine → string → string → Exn + list (list string);
  infer_cell : list (option string) → string → option PyVal
}.

End Script.

Arguments Value : clear implicits.
Arguments Instance : clear implicits.
Arguments Local : clear implicits.
Arguments Callback : clear implicits.
Arguments Lib : clear implicits.

(** ** Text files *)
Module Text.

Definition LF : ascii := "010"%char.
Definition CR : ascii := "013"%char.

(** The lines of a text, ended by LF, CR LF or CR; a final line end does
    not open another line. *)
Fixpoint lines_from (after_cr : bool) (s : string) : list string :=
  match s with
  | EmptyString => []
  | String c s' =>
      if Ascii.eqb c LF then
        if after_cr then lines_from false s' else "" :: lines_from false s'
      else if Ascii.eqb c CR then "" :: lines_from true s'
      else match lines_from false s' with
           | [] => [String c ""]
           | l :: ls => String c l :: ls
           end
  end.

Definition lines (s : string) : list string := lines_from false s.

End Text.

(** ** The table reader

    [pandas.read_csv(path, sep, header, names, engine)] as its documentation
    gives it for a call with [names].  The tokenizer of the engine cuts the
    text into rows of fields, or raises; a file without text has no rows.
    Blank rows are skipped.  A row with more fields than the table is wide
    raises a parse error.  Fields the first row has beyond the names become
    row labels.  Every cell is the reader's conversion of its field within
    its column, and a cell for which the row has no field is a missing
    value. *)
Module Pandas.

Definition is_space (c : ascii) : bool :=
  let n := N_of_ascii c in ((n =? 32) || ((9 <=? n) && (n <=? 13)))%N.

Fixpoint all_space (s : string) : bool :=
  match s with
  | EmptyString => true
  | String c s' => is_space c && all_space s'
  end.

(** A row that [skip_blank_lines] drops: no field, or one of blanks only. *)
Definition blank_row (r : list string) : bool :=
  match r with
  | [] => true
  | [f] => all_space f
  | _ => false
  end.

Definition parse_rows (tokenize : string → string → Exn + list (list string))
    (sep : string) (header : option nat) (content : string)
    : Exn + list (list string) :=
  match (match content with
         | EmptyString => inr []
         | _ => tokenize sep content
         end) with
  | inl e => inl e
  | inr rs =>
      let kept := filter (λ r, blank_row r = false) rs in
      inr (match header with
           | None => kept
           | Some h => drop (S h) kept
           end)
  end.

(** The cell of row [r] in column [c] of the rows [rs]. *)
Definition cell (infer : list (option string) → string → option PyVal)
    (rs : list (list string)) (r : list string) (c : nat) : option PyVal :=
  match r !! c with
  | Some field => infer (map (λ r', r' !! c) rs) field
  | None => None
  end.

Definition read_csv (tokenize : Engine → string → string → Exn + list (list string))
    (infer : list (option string) → string → option PyVal)
    (fs : gmap string string) (path sep : string) (header : option nat)
    (names : list string) (engine : Engine) : Exn + DataFrame :=
  match fs !! path with
  | None => inl (IOError path)
  | Some content =>
      match parse_rows (tokenize engine) sep header content with
      | inl e => inl e
      | inr rs =>
          let labels := match rs with
                        | [] => 0%nat
                        | r :: _ => (length r - length names)%nat
                        end in
          let width := (length names + labels)%nat in
          match List.find (λ r, (width <? length r)%nat) rs with
          | Some r => inl (ParserError width (length r))
          | None =>
              inr (mkFrame names
                     (map (λ r, map (cell infer rs r) (seq 0 labels)) rs)
                     (map (λ r, map (cell infer rs r) (seq labels (length names))) rs))
          end
      end
  end.

(** [len(df)] *)
Definition row_count (df : DataFrame) : nat := length (rows df).

End Pandas.

(** ** Name resolution *)

(** Names bound at module level when a function of the script runs: the
    imports (lines 15-26) and the class statement. *)
Definition module_globals : gset string :=
  list_to_set ["seq2seq"; "pd"; "np"; "plot_model"; "Seq2Seq"; "AttentionSeq2Seq";
               "LambdaCallback"; "ModelCheckpoint"; "docopt"; "pformat"; "logging";
               "json"; "Glove"; "Seq2seq_OIE";
               "__name__"; "__doc__"; "__file__"; "__builtins__"].

(** Names the block under [if __name__ == "__main__"] binds, also at module
    level. *)
Definition main_globals : gset string :=
  list_to_set ["args"; "verbosity_level"; "train_fn"; "dev_fn"; "test_fn";
               "hyperparams_fn"; "output_fn"; "hyperparams"; "df"].

(** The builtin functions and constants of Python. *)
Definition builtins : gset string :=
  list_to_set ["abs"; "all"; "any"; "ascii"; "bin"; "bool"; "breakpoint"; "bytearray";
               "bytes"; "callable"; "chr"; "classmethod"; "compile"; "complex";
               "delattr"; "dict"; "dir"; "divmod"; "enumerate"; "eval"; "exec";
               "filter"; "float"; "format"; "frozenset"; "getattr"; "globals";
               "hasattr"; "hash"; "help"; "hex"; "id"; "input"; "int"; "isinstance";
               "issubclass"; "iter"; "len"; "list"; "locals"; "map"; "max";
               "memoryview"; "min"; "next"; "object"; "oct"; "open"; "ord"; "pow";
               "print"; "property"; "range"; "repr"; "reversed"; "round"; "set";
               "setattr"; "slice"; "sorted"; "staticmethod"; "str"; "sum"; "super";
               "tuple"; "type"; "vars"; "zip"; "__import__";
               "None"; "True"; "False"; "Ellipsis"; "NotImplemented"].

Definition bound (n : string) : bool :=
  bool_decide (n ∈ module_globals ∪ main_globals ∪ builtins).

(** Attributes an instance of [Seq2seq_OIE] finds through its class: those
    of the class body (the docstring and the methods), those every class
    has, and those inherited from [object]. *)
Definition class_attrs : gset string :=
  list_to_set ["__doc__"; "__init__"; "compile_model"; "get_callbacks"; "train";
               "load_dataset";
               "__module__"; "__dict__"; "__weakref__";
               "__class__"; "__new__"; "__repr__"; "__str__"; "__hash__";
               "__eq__"; "__ne__"; "__lt__"; "__le__"; "__gt__"; "__ge__";
               "__getattribute__"; "__setattr__"; "__delattr__"; "__dir__";
               "__format__"; "__reduce__"; "__reduce_ex__"; "__getstate__";
               "__sizeof__"; "__subclasshook__"; "__init_subclass__"].

(** [os.path.join] on two components. *)
Definition path_join (a b : string) : string :=
  match b with
  | String "/" _ => b
  | _ => if (a =? "") || Py.contains "/" (String.substring (String.length a - 1) 1 a)
         then a ++ b else a ++ "/" ++ b
  end.

(** The thirteen column names, as line 164-165 builds them. *)
Definition column_names : list string :=
  ["sent"; "base-pred"; "surface-pred"] ++ map (λ i : Z, "arg" ++ pretty i) (Py.range 10).

Section Program.

Context {Model Rng : Type} (lib : Lib Model Rng).

Local Abbreviation M := (M Rng).

(** *** Helpers: names, attributes, subscripts, calls *)

(** A reference to a global or builtin name. *)
Definition global_name (n : string) : M unit :=
  if bound n then ret tt else raise (NameError n).

(** A reference to a name inside a function whose local variables are
    [locals]. *)
Definition load_name (locals : gmap string (Local Model)) (n : string) : M (Local Model) :=
  match locals !! n with
  | Some x => ret x
  | None => if bound n then ret (LVal (VGlobal n)) else raise (NameError n)
  end.

(** [o.a] on an instance: the instance dictionary, then the class. *)
Definition getattr (o : Instance Model) (a : string) : M (Value Model) :=
  match o !! a with
  | Some v => ret v
  | None => if bool_decide (a ∈ class_attrs) then ret (VGlobal a)
            else raise (AttributeError a)
  end.

Definition as_instance (x : Local Model) : M (Instance Model) :=
  match x with
  | LInst o => ret o
  | LVal _ => raise (AttributeError "not an instance of Seq2seq_OIE")
  end.

Definition as_value (x : Local Model) : M (Value Model) :=
  match x with
  | LVal v => ret v
  | LInst _ => raise (TypeError "an instance where a value is expected")
  end.

Definition as_dict (v : Value Model) : M (gmap string PyVal) :=
  match v with
  | VDict d => ret d
  | _ => raise (TypeError "object is not subscriptable")
  end.

Definition as_emb (v : Value Model) : M Emb :=
  match v with
  | VEmb e => ret e
  | _ => raise (AttributeError "dim")
  end.

Definition as_model (v : Value Model) : M Model :=
  match v with
  | VModel m => ret m
  | _ => raise (AttributeError "fit")
  end.

Definition as_py (v : Value Model) : M PyVal :=
  match v with
  | VPy p => ret p
  | _ => raise (TypeError "a library object where a plain value is expected")
  end.

Definition as_str (v : PyVal) : M string :=
  match v with
  | PyStr s => ret s
  | _ => raise (TypeError "expected str")
  end.

(** [d[k]] on a dictionary of keyword arguments. *)
Definition subscript (d : gmap string PyVal) (k : string) : M PyVal :=
  match d !! k with
  | Some v => ret v
  | None => raise (KeyError k)
  end.

(** [v[k]] with a string key on a value read from JSON. *)
Definition item (v : PyVal) (k : string) : Exn + PyVal :=
  match v with
  | PyDict kv =>
      match List.find (λ p, fst p =? k) kv with
      | Some p => inr (snd p)
      | None => inl (KeyError k)
      end
  | PyList _ | PyTuple _ | PyStr _ => inl (TypeError "indices must be integers")
  | _ => inl (TypeError "object is not subscriptable")
  end.

Definition getitem (v : PyVal) (k : string) : M PyVal := lift (item v k).

(** [self.args[k]] *)
Definition self_args (self : Instance Model) (k : string) : M PyVal :=
  a <- getattr self "args";;
  d <- as_dict a;;
  subscript d k.

(** Binding of the arguments of a call to the parameters of a [def]. *)
Definition bind_params (params : list string) (args : list (Local Model))
    : M (gmap string (Local Model)) :=
  if (length params =? length args)%nat
  then ret (list_to_map (zip params args))
  else raise (TypeError "wrong number of arguments").

(** *** Calls into the libraries *)

Definition logging_debug (msg : string) : M unit :=
  global_name "logging";;
  level <- get_level;;
  if (level <=? DEBUG)%Z then emit (EvLog msg) else ret tt.

Definition logging_basicConfig (level : Z) : M unit :=
  global_name "logging";;
  emit (EvBasicConfig level);;
  put_level level.

Definition new_Glove (fn : PyVal) : M Emb :=
  global_name "Glove";;
  emit (EvGlove fn);;
  fs <- get_files;;
  lift (Glove lib fs fn).

Definition np_random_seed (seed : PyVal) : M unit :=
  global_name "np";;
  emit (EvSeed seed);;
  match seed with
  | PyNone => r <- get_urandom;; put_rng r
  | _ => r <- lift (seed_state lib seed);; put_rng r
  end.

Definition new_network (cls : string)
    (ctor : list (string * PyVal) → Rng → Exn + (Model * Rng))
    (kwargs : list (string * PyVal)) : M Model :=
  global_name cls;;
  emit (EvNew cls kwargs);;
  r <- get_rng;;
  mr <- lift (ctor kwargs r);;
  put_rng (snd mr);;
  ret (fst mr).

Definition compile (model : Model) (loss optimizer : PyVal) : M Model :=
  emit (EvCompile loss optimizer);;
  lift (model_compile lib model loss optimizer).

Definition summary (model : Model) : M unit :=
  emit (EvSummary (model_summary lib model)).

Definition pd_read_csv (fn sep : string) (header : option nat)
    (names : list string) (engine : Engine) : M DataFrame :=
  global_name "pd";;
  emit (EvReadCsv fn sep names);;
  fs <- get_files;;
  lift (Pandas.read_csv (read_rows lib) (infer_cell lib) fs fn sep header names engine).

Definition open_read (fn : string) : M string :=
  global_name "open";;
  emit (EvOpen fn);;
  fs <- get_files;;
  match fs !! fn with
  | Some content => ret content
  | None => raise (IOError fn)
  end.

Definition json_load (content : string) : M PyVal :=
  global_name "json";;
  emit EvJsonLoad;;
  lift (json_loads lib content).

End Program.

(** ** The class [Seq2seq_OIE] and the entry point *)

Section Seq2seq_OIE.

Context {Model Rng : Type} (lib : Lib Model Rng).

Local Abbreviation M := (M Rng).

(** [compile_model] (lines 71-120), a static method. *)
Definition compile_model
    (input_length input_depth input_dim hidden_dim output_length output_depth
     output_dim peek attention loss optimizer : PyVal) : M Model :=
  let model_fn (args : list (string * PyVal)) : M Model :=
    if Py.truthy attention
    then new_network "AttentionSeq2Seq" (AttentionSeq2Seq lib) args
    else new_network "Seq2Seq" (Seq2Seq lib) (("peek", peek) :: args) in
  model <- model_fn [("input_length", input_length);
                     ("input_dim", input_dim);
                     ("hidden_dim", hidden_dim);
                     ("output_length", output_length);
                     ("output_dim", output_dim);
                     ("depth", PyTuple [input_depth; output_depth])];;
  model <- compile lib model loss optimizer;;
  global_name "logging";;
  level <- get_level;;
  (if (level =? DEBUG)%Z then summary lib model else ret tt);;
  ret model.

(** [__init__] (lines 33-68): the attribute dictionary it leaves. *)
Definition __init__ (args : gmap string PyVal) : M (Instance Model) :=
  let self : Instance Model := <["args" := VDict args]> ∅ in
  sep <- self_args self "sep";;
  global_name "str";;
  let self := <["sep" := VPy (PyStr (Py.str sep))]> self in
  emb_fn <- self_args self "emb_fn";;
  emb <- new_Glove lib emb_fn;;
  let self := <["emb" := VEmb emb]> self in
  epochs <- self_args self "epochs";;
  let self := <["epochs" := VPy epochs]> self in
  seed <- self_args self "seed";;
  np_random_seed lib seed;;
  global_name "Seq2seq_OIE";;
  input_length <- self_args self "batch_size";;
  input_depth <- self_args self "input_depth";;
  input_dim <- (e <- getattr self "emb";; e <- as_emb e;; ret (PyInt (dim e)));;
  hidden_dim <- self_args self "hidden_dim";;
  output_length <- self_args self "maximum_output_length";;
  output_depth <- self_args self "output_depth";;
  output_dim <- (e <- getattr self "emb";; e <- as_emb e;; ret (PyInt (dim e)));;
  peek <- self_args self "peek";;
  attention <- self_args self "attention";;
  loss <- self_args self "loss";;
  optimizer <- self_args self "optimizer";;
  model <- compile_model input_length input_depth input_dim hidden_dim
             output_length output_depth output_dim peek attention loss optimizer;;
  ret (<["model" := VModel model]> self).

(** [load_dataset] (lines 156-167), a static method. *)
Definition load_dataset (fn sep : string) : M DataFrame :=
  global_name "range";;
  pd_read_csv lib fn sep None column_names EnginePython.

(** The body of the [lambda] of line 130-131. *)
Definition sample_output (self : Instance Model) (X : Value Model)
    (epoch logs : PyVal) : M unit :=
  global_name "pprint";;
  getattr self "sample_labels";;
  model <- getattr self "model";;
  model <- as_model model;;
  lift (model_predict lib model X);;
  ret tt.

(** [get_callbacks] (lines 122-137). *)
Definition get_callbacks (self : Instance Model) (X : Value Model) : M (list (Callback Rng)) :=
  global_name "LambdaCallback";;
  let sample_output_callback := LambdaCallback (sample_output self X) in
  global_name "ModelCheckpoint";;
  global_name "os";;
  model_dir <- getattr self "model_dir";;
  model_dir <- as_py model_dir;;
  model_dir <- as_str model_dir;;
  let checkpoint := ModelCheckpoint (path_join model_dir "weights.hdf5") 1 false in
  ret [sample_output_callback; checkpoint].

(** [X, Y = v] *)
Definition unpack2 (v : Value Model) : M (Value Model * Value Model) :=
  match v with
  | VFrame df =>
      match columns df with
      | [a; b] => ret (VPy (PyStr a), VPy (PyStr b))
      | _ => raise (ValueError "wrong number of values to unpack")
      end
  | VPy (PyList [a; b]) | VPy (PyTuple [a; b]) => ret (VPy a, VPy b)
  | _ => raise (TypeError "cannot unpack")
  end.

(** [self.load_dataset(fn)] as [train] writes it: the static method takes
    two arguments and is given one. *)
Definition call_load_dataset (args : list (Local Model)) : M (Value Model) :=
  locals <- bind_params ["fn"; "sep"] args;;
  fn <- load_name locals "fn";;
  fn <- as_value fn;; fn <- as_py fn;; fn <- as_str fn;;
  sep <- load_name locals "sep";;
  sep <- as_value sep;; sep <- as_py sep;; sep <- as_str sep;;
  df <- load_dataset fn sep;;
  ret (VFrame df).

(** [train] (lines 140-154): its parameter list has no [self]. *)
Definition train_params : list string := ["train_fn"; "dev_fn"].

Definition train_body (locals : gmap string (Local Model)) : M unit :=
  self <- load_name locals "self";;
  self <- as_instance self;;
  getattr self "load_dataset";;
  train_fn <- load_name locals "train_fn";;
  d <- call_load_dataset [train_fn];;
  xy_train <- unpack2 d;;
  getattr self "load_dataset";;
  dev_fn <- load_name locals "dev_fn";;
  d <- call_load_dataset [dev_fn];;
  xy_dev <- unpack2 d;;
  msg <- (v <- as_value train_fn;; v <- as_py v;; ret ("Training model on " ++ Py.str v));;
  logging_debug msg;;
  model <- getattr self "model";;
  model <- as_model model;;
  batch_size <- getattr self "batch_size";;
  batch_size <- as_py batch_size;;
  epochs <- getattr self "epochs";;
  epochs <- as_py epochs;;
  callbacks <- get_callbacks self (fst xy_train);;
  emit (EvFit batch_size epochs (length callbacks));;
  r <- get_rng;;
  mr <- lift (model_fit lib model (fst xy_train) (snd xy_train) batch_size epochs
                xy_dev callbacks r);;
  put_rng (snd mr).

(** [s2s.train(train_fn, dev_fn)]: a call through an instance passes the
    instance as the first argument. *)
Definition train (self : Instance Model) (train_fn dev_fn : PyVal) : M unit :=
  locals <- bind_params train_params [LInst self; LVal (VPy train_fn); LVal (VPy dev_fn)];;
  train_body locals.

(** The block under [if __name__ == "__main__"] (lines 179-197); the
    construction of the model (line 197) is commented out. *)
Definition main (argv : list string) : M DataFrame :=
  global_name "docopt";;
  emit (EvDocopt argv);;
  args <- lift (docopt lib __doc__ argv);;
  let verbosity_level := if cli_v args then DEBUG else INFO in
  logging_basicConfig verbosity_level;;
  global_name "pformat";;
  logging_debug (pformat lib (cli_dict args));;
  let train_fn := cli_train args in
  let dev_fn := cli_dev args in
  let test_fn := cli_test args in
  let hyperparams_fn := cli_hyperparams args in
  let output_fn := cli_saveto args in
  content <- open_read hyperparams_fn;;
  j <- json_load lib content;;
  hyperparams <- getitem j "hyperparams";;
  logging_debug ("Model hyperparms: " ++ pformat lib hyperparams);;
  global_name "Seq2seq_OIE";;
  sep <- getitem hyperparams "sep";;
  global_name "str";;
  load_dataset train_fn (Py.str sep).

End Seq2seq_OIE.

(** ** A small instance of the libraries

    Enough of each library to run the script on fixtures: a generator that
    is a linear congruence on [Z], networks that record how they were
    built, a tokenizer that cuts at a one-character delimiter, a conversion
    of cells that knows missing values, integers, short decimals and
    booleans. *)
Module Toy.

Record Network : Type := mkNetwork {
  net_cls : string;
  net_kwargs : list (string * PyVal);
  net_init : Z;
  net_compiled : option (PyVal * PyVal)
}.

Definition next (r : Z) : Z := (r * 1103515245 + 12345) mod 2147483648.

Fixpoint split_on (c : ascii) (s : string) : list string :=
  match s with
  | EmptyString => [""]
  | String d s' =>
      if Ascii.eqb c d then "" :: split_on c s'
      else match split_on c s' with
           | [] => [String d ""]
           | f :: fs => String d f :: fs
           end
  end.

(** A tokenizer for delimiters of one character and text without quotes:
    one row for each line, no field for an empty line. *)
Definition tokenize (e : Engine) (sep content : string) : Exn + list (list string) :=
  if Py.contains Py.dquote content
  then inl (LibraryError "csv" "quoted fields are beyond this reader")
  else match sep with
       | String c EmptyString =>
           inr (map (λ l, match l with
                          | EmptyString => []
                          | _ => split_on c l
                          end) (Text.lines content))
       | _ => inl (LibraryError "re" "such delimiters are beyond this reader")
       end.

(** The strings the reader takes as missing values. *)
Definition na_values : list string :=
  [""; "#N/A"; "#N/A N/A"; "#NA"; "-1.#IND"; "-1.#QNAN"; "-NaN"; "-nan"; "1.#IND";
   "1.#QNAN"; "<NA>"; "N/A"; "NA"; "NULL"; "NaN"; "None"; "n/a"; "nan"; "null"].

Definition is_na (s : string) : bool := existsb (String.eqb s) na_values.

Definition is_digit (c : ascii) : bool :=
  let n := N_of_ascii c in ((48 <=? n) && (n <=? 57))%N.

Fixpoint all_digits (s : string) : bool :=
  match s with
  | EmptyString => true
  | String c s' => is_digit c && all_digits s'
  end.

Fixpoint digits_value (acc : Z) (s : string) : Z :=
  match s with
  | EmptyString => acc
  | String c s' => digits_value (10 * acc + (Z.of_N (N_of_ascii c) - 48)) s'
  end.

(** A sign and what follows it. *)
Definition unsigned (s : string) : bool * string :=
  match s with
  | String "-" t => (true, t)
  | String "+" t => (false, t)
  | _ => (false, s)
  end.

Definition parse_int (s : string) : option Z :=
  let (neg, t) := unsigned s in
  if negb (t =? "") && all_digits t
  then Some (if neg then - digits_value 0 t else digits_value 0 t)
  else None.

(** The digits before and after the point of a decimal. *)
Fixpoint point (s : string) : string * option string :=
  match s with
  | EmptyString => ("", None)
  | String c s' =>
      if Ascii.eqb c "." then ("", Some s')
      else (String c (fst (point s')), snd (point s'))
  end.

Fixpoint strip_zeros (s : string) : string :=
  match s with
  | EmptyString => ""
  | String c s' =>
      if (strip_zeros s' =? "") && Ascii.eqb c "0" then "" else String c (strip_zeros s')
  end.

(** The [repr] of the float a short decimal denotes. *)
Definition parse_decimal (s : string) : option string :=
  let (neg, t) := unsigned s in
  let whole := fst (point t) in
  let frac := default "" (snd (point t)) in
  if all_digits whole && all_digits frac && negb ((whole =? "") && (frac =? ""))
  then Some ((if neg then "-" else "") ++ pretty (digits_value 0 whole) ++ "."
             ++ (if strip_zeros frac =? "" then "0" else strip_zeros frac))
  else None.

Definition parse_bool (s : string) : option bool :=
  if existsb (String.eqb s) ["True"; "TRUE"; "true"] then Some true
  else if existsb (String.eqb s) ["False"; "FALSE"; "false"] then Some false
  else None.

(** The conversion of a field within its column: missing values first,
    then integers, decimals and booleans when the whole column reads as
    such, the text otherwise. *)
Definition infer (column : list (option string)) (field : string) : option PyVal :=
  let present := omap (λ f, match f with
                            | Some t => if is_na t then None else Some t
                            | None => None
                            end) column in
  let complete := (length present =? length column)%nat in
  if is_na field then None
  else if forallb (λ t, bool_decide (is_Some (parse_int t))) present then
    if complete then PyInt <$> parse_int field
    else PyFloat <$> parse_decimal field
  else if forallb (λ t, bool_decide (is_Some (parse_decimal t))) present then
    PyFloat <$> parse_decimal field
  else if forallb (λ t, bool_decide (is_Some (parse_bool t))) present then
    PyBool <$> parse_bool field
  else Some (PyStr field).

Definition glove (fs : gmap string string) (fn : PyVal) : Exn + Emb :=
  match fn with
  | PyStr p =>
      match fs !! p with
      | Some content =>
          match Text.lines content with
          | l :: _ => inr (mkEmb p (Z.of_nat (length (split_on " " l)) - 1))
          | [] => inl (ValueError "empty embedding file")
          end
      | None => inl (IOError p)
      end
  | _ => inl (TypeError "expected str")
  end.

Definition seed (v : PyVal) : Exn + Z :=
  match v with
  | PyInt z => if ((0 <=? z) && (z <? 4294967296))%Z
               then inr z else inl (ValueError "Seed must be between 0 and 2**32 - 1")
  | PyBool b => inr (if b then 1 else 0)
  | _ => inl (TypeError "Cannot cast to an unsigned integer")
  end.

Definition build (cls : string) (kwargs : list (string * PyVal)) (r : Z)
    : Exn + (Network * Z) :=
  inr (mkNetwork cls kwargs (next r) None, next r).

Definition compile (m : Network) (loss optimizer : PyVal) : Exn + Network :=
  match loss, optimizer with
  | PyStr _, PyStr _ =>
      inr (mkNetwork (net_cls m) (net_kwargs m) (net_init m) (Some (loss, optimizer)))
  | _, _ => inl (ValueError "unknown loss or optimizer")
  end.

Fixpoint strip_prefix (p s : string) : option string :=
  match p, s with
  | EmptyString, _ => Some s
  | String a p', String b s' => if Ascii.eqb a b then strip_prefix p' s' else None
  | _, _ => None
  end.

Definition parse_argv (doc : string) (argv : list string) : Exn + CliArgs :=
  match argv with
  | a :: b :: c :: d :: e :: rest =>
      match strip_prefix "--train=" a, strip_prefix "--dev=" b, strip_prefix "--test=" c,
            strip_prefix "--hyperparams=" d, strip_prefix "--saveto=" e, rest with
      | Some t, Some dv, Some te, Some h, Some s, [] => inr (mkCli t dv te h s false)
      | Some t, Some dv, Some te, Some h, Some s, ["-v"] => inr (mkCli t dv te h s true)
      | _, _, _, _, _, _ => inl (SystemExit doc)
      end
  | _ => inl (SystemExit doc)
  end.

(** The hyperparameters of the fixtures. *)
Definition hyperparams : list (string * PyVal) :=
  [("seed", PyInt 42); ("sep", PyStr (String "009"%char ""));
   ("batch_size", PyInt 3); ("maximum_output_length", PyInt 5);
   ("emb_fn", PyStr "glove.txt"); ("hidden_dim", PyInt 4);
   ("input_depth", PyInt 1); ("output_depth", PyInt 1);
   ("peek", PyBool false); ("attention", PyBool false); ("epochs", PyInt 1);
   ("loss", PyStr "categorical_crossentropy"); ("optimizer", PyStr "adam")].

(** A decoder that knows the fixture document by its text. *)
Definition decode (content : string) : Exn + PyVal :=
  if content =? "hyperparams-fixture"
  then inr (PyDict [("hyperparams", PyDict hyperparams)])
  else if content =? "numeric-sep-fixture"
  then inr (PyDict [("hyperparams", PyDict [("sep", PyInt 5)])])
  else inl (ValueError "No JSON object could be decoded").

Definition lib : Lib Network Z :=
  {| Glove := glove;
     seed_state := seed;
     random_sample := λ r, (next r, next r);
     AttentionSeq2Seq := build "AttentionSeq2Seq";
     Seq2Seq := build "Seq2Seq";
     model_compile := compile;
     model_summary := net_cls;
     model_predict := λ _ _, inl (LibraryError "keras" "predict");
     model_fit := λ m _ _ _ _ _ _ r, inr (m, next r);
     docopt := parse_argv;
     json_loads := decode;
     pformat := Py.repr;
     read_rows := tokenize;
     infer_cell := infer |}.

Definition tab : string := String "009"%char "".

Definition nl : string := String Text.LF "".

(** Three well-formed rows of thirteen fields. *)
Definition row13 (s : string) : string :=
  Py.join tab [s; "be"; "is"; "a0"; "a1"; "a2"; "a3"; "a4"; "a5"; "a6"; "a7"; "a8"; "a9"].

Definition train_tsv : string :=
  row13 "first" ++ nl ++ row13 "second" ++ nl ++ row13 "third" ++ nl.

(** A file whose second row has two fields only. *)
Definition short_tsv : string :=
  row13 "first" ++ nl ++ "second" ++ tab ++ "be" ++ nl.

Definition disk : gmap string string :=
  list_to_map [("glove.txt", "the 0.1 0.2" ++ nl ++ "of 0.3 0.4" ++ nl);
               ("model.json", "hyperparams-fixture");
               ("numeric.json", "numeric-sep-fixture");
               ("train.tsv", train_tsv);
               ("short.tsv", short_tsv)].

Definition world (r : Z) (level : Z) : World Z := mkWorld r 7 disk level [].

Definition args : gmap string PyVal := list_to_map hyperparams.

Definition argv : list string :=
  ["--train=train.tsv"; "--dev=dev.tsv"; "--test=test.tsv"; "--hyperparams=model.json";
   "--saveto=out"].

(** A file with a row of fourteen fields after a row of thirteen. *)
Definition long_tsv : string :=
  row13 "first" ++ nl ++ row13 "second" ++ tab ++ "extra" ++ nl.

Definition disk2 : gmap string string :=
  list_to_map [("long.tsv", long_tsv); ("empty.tsv", "")].

Definition world2 : World Z := mkWorld 0 7 disk2 WARNING [].

Definition argv_numeric : list string :=
  ["--train=train.tsv"; "--dev=dev.tsv"; "--test=test.tsv"; "--hyperparams=numeric.json";
   "--saveto=out"].

End Toy.

(** ** What the properties are stated with *)

#[global] Instance PyVal_inhabited : Inhabited PyVal := populate PyNone.

(** The keys [__init__] reads from its keyword arguments. *)
Definition required_keys : list string :=
  ["sep"; "emb_fn"; "epochs"; "seed"; "batch_size"; "input_depth"; "hidden_dim";
   "maximum_output_length"; "output_depth"; "peek"; "attention"; "loss"; "optimizer"].

(** Events of building or fitting a network. *)
Definition builds_or_trains (e : Event) : bool :=
  match e with
  | EvGlove _ | EvSeed _ | EvNew _ _ | EvCompile _ _ | EvSummary _ | EvFit _ _ _ => true
  | _ => false
  end.

(** The keyword arguments both network constructors are given. *)
Definition shared_kwargs (input_length input_depth input_dim hidden_dim output_length
    output_depth output_dim : PyVal) : list (string * PyVal) :=
  [("input_length", input_length); ("input_dim", input_dim); ("hidden_dim", hidden_dim);
   ("output_length", output_length); ("output_dim", output_dim);
   ("depth", PyTuple [input_depth; output_depth])].

Definition has_key (k : string) (kwargs : list (string * PyVal)) : bool :=
  existsb (λ p, fst p =? k) kwargs.

Section Judgements.

Context {Rng : Type}.

Local Abbreviation M := (M Rng).

(** A computation that reads nothing of the process and changes nothing. *)
Definition pure {A} (m : M A) : Prop :=
  ∀ w1 w2, fst (m w1) = fst (m w2) ∧ snd (m w1) = w1.

(** A computation that cannot raise and leaves generator and files alone. *)
Definition silent {A} (m : M A) : Prop :=
  ∀ w, (∃ a, fst (m w) = inr a) ∧ rng (snd (m w)) = rng w ∧ files (snd (m w)) = files w.

(** What a computation returns when it returns. *)
Definition returns {A} (Q : A → Prop) (m : M A) : Prop :=
  ∀ w a w', m w = (inr a, w') → Q a.

(** A computation whose calls all satisfy [P] and that leaves the generator
    as it found it. *)
Definition emits_only {A} (P : Event → bool) (m : M A) : Prop :=
  ∀ w, (∃ evs, trace (snd (m w)) = (trace w ++ evs)%list ∧ forallb P evs = true)
       ∧ rng (snd (m w)) = rng w.

(** Two runs see the same files and, once seeded, the same generator. *)
Definition same_run (seeded : bool) (w1 w2 : World Rng) : Prop :=
  files w1 = files w2 ∧ (seeded = true → rng w1 = rng w2).

(** Two computations started in such runs raise the same exception, or
    both return, with related results, in runs that again agree. *)
Definition rel {A B} (b b' : bool) (R : A → B → Prop) (m1 : M A) (m2 : M B) : Prop :=
  ∀ w1 w2, same_run b w1 w2 →
    match fst (m1 w1), fst (m2 w2) with
    | inl e1, inl e2 => e1 = e2
    | inr a1, inr a2 => R a1 a2 ∧ same_run b' (snd (m1 w1)) (snd (m2 w2))
    | _, _ => False
    end.

(** Two computations that, started in the same process, raise the same
    exception or both return, with related results, and leave the process
    in the same state. *)
Definition agree {A B} (R : A → B → Prop) (m1 : M A) (m2 : M B) : Prop :=
  ∀ w, match m1 w, m2 w with
       | (inl e1, w1), (inl e2, w2) => e1 = e2 ∧ w1 = w2
       | (inr a1, w1), (inr a2, w2) => R a1 a2 ∧ w1 = w2
       | _, _ => False
       end.

End Judgements.

Section Specifications.

Context {Model Rng : Type} (lib : Lib Model Rng).

Local Abbreviation M := (M Rng).

(** The next [n] draws from a generator state. *)
Fixpoint draws (n : nat) (r : Rng) : list Z :=
  match n with
  | O => []
  | S n' => fst (random_sample lib r) :: draws n' (snd (random_sample lib r))
  end.

(** The attributes a finished [__init__] leaves. *)
Definition instance_of (args : gmap string PyVal) (emb : Emb) (model : Model)
    : Instance Model :=
  <["model" := VModel model]>
    (<["epochs" := VPy (args !!! "epochs")]>
       (<["emb" := VEmb emb]>
          (<["sep" := VPy (PyStr (Py.str (args !!! "sep")))]>
             (<["args" := VDict args]> ∅)))).

Definition request_network (args : gmap string PyVal) (emb : Emb) : M Model :=
  compile_model lib (args !!! "batch_size") (args !!! "input_depth") (PyInt (dim emb))
    (args !!! "hidden_dim") (args !!! "maximum_output_length") (args !!! "output_depth")
    (PyInt (dim emb)) (args !!! "peek") (args !!! "attention") (args !!! "loss")
    (args !!! "optimizer").


(** Construct with the first two steps in the order of the code: the
    embedding table is loaded, then the seed is applied. *)
Definition Construct_embedding_first (args : gmap string PyVal) : M (Instance Model) :=
  emb <- new_Glove lib (args !!! "emb_fn");;
  np_random_seed lib (args !!! "seed");;
  model <- request_network args emb;;
  ret (instance_of args emb model).

End Specifications.

(** The keys [__init__] reads before it seeds, and the keys it reads after,
    for the call of [compile_model]. *)
Definition early_keys : list string := ["sep"; "emb_fn"; "epochs"; "seed"].


(** The attributes [__init__] assigns. *)
Definition instance_attrs : gset string :=
  list_to_set ["args"; "sep"; "emb"; "epochs"; "model"].

Definition is_log (e : Event) : bool :=
  match e with
  | EvLog _ => true
  | _ => false
  end.

Definition is_read_csv (e : Event) : bool :=
  match e with
  | EvReadCsv _ _ _ => true
  | _ => false
  end.

(** Events that touch no file but the hyperparameter file, opened, and the
    train file, read as a table. *)
Definition touches_only (cli : CliArgs) (e : Event) : bool :=
  match e with
  | EvOpen p => p =? cli_hyperparams cli
  | EvReadCsv p _ _ => p =? cli_train cli
  | EvGlove _ | EvFit _ _ _ => false
  | _ => true
  end.


(** ** Names *)

Lemma global_name_bound {Rng} (n : string) :
  bound n = true → @global_name Rng n = ret tt.
Proof. intros H. unfold global_name. by rewrite H. Qed.

Lemma bound_os : bound "os" = false.
Proof. by vm_compute. Qed.

Lemma bound_pprint : bound "pprint" = false.
Proof. by vm_compute. Qed.

Lemma bound_self : bound "self" = false.
Proof. by vm_compute. Qed.

(** Replaces the references to names that are bound by [ret tt]. *)
Ltac resolve_names :=
  repeat match goal with
         | |- context [@global_name ?R ?n] =>
             rewrite (@global_name_bound R n) by (vm_compute; reflexivity)
         end.

(** ** The network factory *)

Section Factory.

Context {Model Rng : Type} (lib : Lib Model Rng).

(** C1.  Under [attention=True] the factory gives the same outcome, the same
    network in the same process state, for [peek=True] and for [peek=False];
    and for every [peek] and [attention] the constructor called is the
    attention one without a [peek] keyword when [attention] is true, and
    the plain one with [peek] as its first keyword when it is false. *)
Theorem compile_model_ignores_peek_under_attention
    (input_length input_depth input_dim hidden_dim output_length output_depth
     output_dim loss optimizer : PyVal) (w : World Rng) :
  compile_model lib input_length input_depth input_dim hidden_dim output_length
    output_depth output_dim (PyBool true) (PyBool true) loss optimizer w
  = compile_model lib input_length input_depth input_dim hidden_dim output_length
      output_depth output_dim (PyBool false) (PyBool true) loss optimizer w
  ∧ ∀ peek attention : PyVal,
      let shared := shared_kwargs input_length input_depth input_dim hidden_dim
                      output_length output_depth output_dim in
      ∃ kwargs rest,
        trace (snd (compile_model lib input_length input_depth input_dim hidden_dim
                      output_length output_depth output_dim peek attention loss
                      optimizer w))
        = (trace w ++ EvNew (if Py.truthy attention then "AttentionSeq2Seq" else "Seq2Seq")
                        kwargs :: rest)%list
        ∧ kwargs = (if Py.truthy attention then shared else ("peek", peek) :: shared)
        ∧ has_key "peek" kwargs = negb (Py.truthy attention).
Proof.
  split; [reflexivity|].
  intros peek attention shared.
  unfold compile_model, new_network, compile, summary. resolve_names.
  destruct (Py.truthy attention); simpl;
    unfold bind, ret, emit, get_rng, put_rng, get_level, lift; simpl.
  - exists shared.
    destruct (AttentionSeq2Seq lib _ _) as [e|[m r]]; simpl; [by exists []|].
    destruct (model_compile lib m loss optimizer) as [e|m']; simpl;
      [|destruct (log_level w =? DEBUG)%Z; simpl];
      (eexists; split; [rewrite <- ?app_assoc; reflexivity|done]).
  - exists (("peek", peek) :: shared).
    destruct (Seq2Seq lib _ _) as [e|[m r]]; simpl; [by exists []|].
    destruct (model_compile lib m loss optimizer) as [e|m']; simpl;
      [|destruct (log_level w =? DEBUG)%Z; simpl];
      (eexists; split; [rewrite <- ?app_assoc; reflexivity|done]).
Qed.

End Factory.

(** ** What a computation returns *)

Section Returns.

Context {Rng : Type}.

Lemma returns_ret {A} (Q : A → Prop) (a : A) : Q a → returns (Rng:=Rng) Q (ret a).
Proof. intros HQ w a' w' [= <- _]. exact HQ. Qed.

Lemma returns_raise {A} (Q : A → Prop) (e : Exn) : returns (Rng:=Rng) Q (raise e).
Proof. intros w a w' [=]. Qed.

Lemma returns_bind {A B} (Q : B → Prop) (m : M Rng A) (k : A → M Rng B) :
  (∀ a w w', m w = (inr a, w') → returns Q (k a)) → returns Q (bind m k).
Proof.
  intros Hk w b w'. unfold bind. destruct (m w) as [[e|a] w1] eqn:Hm; [done|].
  intros Hb. exact (Hk a w w1 Hm w1 b w' Hb).
Qed.

End Returns.

(** ** The callbacks and the training method *)

Section Callbacks.

Context {Model Rng : Type} (lib : Lib Model Rng).

Lemma get_callbacks_raises (self : Instance Model) (X : Value Model) (w : World Rng) :
  get_callbacks lib self X w = (inl (NameError "os"), w).
Proof. unfold get_callbacks. resolve_names. reflexivity. Qed.

Lemma init_leaves_no_model_dir (args : gmap string PyVal) :
  returns (λ o : Instance Model, o !! "model_dir" = None) (__init__ lib args).
Proof.
  unfold __init__.
  repeat (apply returns_bind; intros ? ? ? _).
  apply returns_ret. by vm_compute.
Qed.

(** C2.  A call [s2s.train(train_fn, dev_fn)] on an instance raises a
    [TypeError] when the arguments are bound, the instance being a third
    argument for two parameters; and the body run with its two parameters
    bound raises a [NameError] at its first reference to [self].  Neither
    reads a dataset nor reaches [fit]: the process state is left as it was. *)
Theorem train_raises_before_loading
    (self : Instance Model) (train_fn dev_fn : PyVal) (w : World Rng) :
  train lib self train_fn dev_fn w = (inl (TypeError "wrong number of arguments"), w)
  ∧ train_body lib (list_to_map (zip train_params [LVal (VPy train_fn); LVal (VPy dev_fn)])) w
    = (inl (NameError "self"), w).
Proof. split; reflexivity. Qed.

(** C6.  [get_callbacks] returns no list of callbacks, so no checkpoint
    callback for ["weights.hdf5"] comes out of it: the call ends in a
    [NameError] and the files are as they were. *)
Theorem get_callbacks_returns_no_checkpoint
    (self : Instance Model) (X : Value Model) (w : World Rng) :
  fst (get_callbacks lib self X w) = inl (NameError "os")
  ∧ files (snd (get_callbacks lib self X w)) = files w.
Proof. by rewrite get_callbacks_raises. Qed.

(** C9.  Every call of [get_callbacks] raises a [NameError] for [os] and
    returns nothing, in a process state it leaves untouched; [os] and
    [pprint] are bound neither at module level nor as builtins; the body of
    the sampling callback raises a [NameError] for [pprint]; and an instance
    that [__init__] has built has no attribute [model_dir], in its own
    dictionary or in the class. *)
Theorem get_callbacks_always_raises :
  (∀ (self : Instance Model) (X : Value Model) (w : World Rng),
      get_callbacks lib self X w = (inl (NameError "os"), w))
  ∧ bound "os" = false
  ∧ bound "pprint" = false
  ∧ (∀ (self : Instance Model) (X : Value Model) (epoch logs : PyVal) (w : World Rng),
        sample_output lib self X epoch logs w = (inl (NameError "pprint"), w))
  ∧ (∀ (args : gmap string PyVal) (w w' : World Rng) (o : Instance Model),
        __init__ lib args w = (inr o, w') →
        getattr o "model_dir" w' = (inl (AttributeError "model_dir"), w')).
Proof.
  split; [apply get_callbacks_raises|].
  split; [apply bound_os|]. split; [apply bound_pprint|].
  split; [reflexivity|].
  intros args w w' o Hinit.
  pose proof (init_leaves_no_model_dir args w o w' Hinit) as Hnone.
  unfold getattr. by rewrite Hnone.
Qed.

End Callbacks.

(** ** The table reader and [load_dataset] *)

Section Reader.

Variable tokenize : Engine → string → string → Exn + list (list string).

Variable infer : list (option string) → string → option PyVal.

Lemma find_none_forall {A} (p : A → bool) (l : list A) :
  List.find p l = None ↔ Forall (λ x, p x = false) l.
Proof.
  induction l as [|x l IH]; simpl; [by split|].
  destruct (p x) eqn:Hp.
  - split; [done|]. intros H. inversion H; congruence.
  - rewrite IH. split; [by constructor|]. by inversion 1.
Qed.

Lemma filter_all_kept {A} (p : A → bool) (l : list A) :
  Forall (λ x, p x = false) l → filter (λ x, p x = false) l = l.
Proof.
  induction 1 as [|x l Hx _ IH]; [done|].
  rewrite filter_cons_True by done. by rewrite IH.
Qed.


Lemma cell_missing (rs : list (list string)) (r : list string) (c : nat) :
  (length r ≤ c)%nat → Pandas.cell infer rs r c = None.
Proof. intros H. unfold Pandas.cell. by rewrite (lookup_ge_None_2 r c H). Qed.

Lemma cells_lookup (rs : list (list string)) (r : list string) (from n j : nat) :
  (j < n)%nat →
  map (Pandas.cell infer rs r) (seq from n) !! j = Some (Pandas.cell infer rs r (from + j)).
Proof.
  intros Hj. change (map (Pandas.cell infer rs r) (seq from n))
    with (Pandas.cell infer rs r <$> seq from n).
  by rewrite list_lookup_fmap, lookup_seq_lt.
Qed.

(** What a successful read returns. *)
Lemma read_csv_frame fs path sep names engine df :
  Pandas.read_csv tokenize infer fs path sep None names engine = inr df →
  ∃ content rs labels,
    fs !! path = Some content
    ∧ Pandas.parse_rows (tokenize engine) sep None content = inr rs
    ∧ columns df = names
    ∧ Forall (λ r, (length r ≤ length names + labels)%nat) rs
    ∧ index df = map (λ r, map (Pandas.cell infer rs r) (seq 0 labels)) rs
    ∧ rows df = map (λ r, map (Pandas.cell infer rs r) (seq labels (length names))) rs.
Proof.
  unfold Pandas.read_csv. destruct (fs !! path) as [content|]; [|done].
  destruct (Pandas.parse_rows (tokenize engine) sep None content) as [e|rs] eqn:Hparse;
    [done|].
  set (labels := match rs with [] => 0%nat | r :: _ => (length r - length names)%nat end).
  destruct (List.find _ rs) as [r|] eqn:Hfind; [done|].
  intros [= <-]. exists content, rs, labels. simpl. repeat split; try done.
  apply find_none_forall in Hfind. eapply Forall_impl; [exact Hfind|].
  simpl. intros r Hr. apply Nat.ltb_ge in Hr. lia.
Qed.

(** Rows that are no longer than the list of names are all accepted. *)
Lemma read_csv_short_rows fs path sep names engine content rs :
  fs !! path = Some content →
  Pandas.parse_rows (tokenize engine) sep None content = inr rs →
  Forall (λ r, (length r ≤ length names)%nat) rs →
  ∃ df, Pandas.read_csv tokenize infer fs path sep None names engine = inr df
        ∧ columns df = names
        ∧ rows df = map (λ r, map (Pandas.cell infer rs r) (seq 0 (length names))) rs.
Proof.
  intros Hfile Hparse Hshort. unfold Pandas.read_csv. rewrite Hfile, Hparse.
  assert (match rs with [] => 0%nat | r :: _ => (length r - length names)%nat end = 0%nat)
    as ->.
  { destruct rs as [|r rs']; [done|]. inversion_clear Hshort. lia. }
  rewrite Nat.add_0_r.
  assert (List.find (λ r, (length names <? length r)%nat) rs = None) as ->.
  { apply find_none_forall. eapply Forall_impl; [exact Hshort|].
    simpl. intros r Hr. by apply Nat.ltb_ge. }
  eexists. split; [reflexivity|]. simpl. by split.
Qed.

End Reader.

Section Dataset.

Context {Model Rng : Type} (lib : Lib Model Rng).


Lemma load_dataset_unfold (fn sep : string) (w : World Rng) :
  load_dataset lib fn sep w
  = (Pandas.read_csv (read_rows lib) (infer_cell lib) (files w) fn sep None column_names
       EnginePython,
     mkWorld (rng w) (urandom w) (files w) (log_level w)
       (trace w ++ [EvReadCsv fn sep column_names])).
Proof. unfold load_dataset, pd_read_csv. resolve_names. reflexivity. Qed.


(** C3, as the code has it.  When the reader cuts the file into one row of
    thirteen fields for each of its lines, [load_dataset] returns a table
    with as many rows as the file has lines.  Rows of fewer than thirteen
    fields raise no error: when no row of the file has more than thirteen
    fields, [load_dataset] returns a table with one row for each row of the
    file that is not blank, every one of thirteen cells, and the cells a
    row has no field for are missing values. *)
Theorem load_dataset_row_count (fn sep content : string) (w : World Rng) :
  files w !! fn = Some content →
  (∀ all : list (list string),
     read_rows lib EnginePython sep content = inr all →
     length all = length (Text.lines content) →
     Forall (λ r, length r = 13%nat) all →
     ∃ df, fst (load_dataset lib fn sep w) = inr df
           ∧ Pandas.row_count df = length (Text.lines content))
  ∧ (∀ rs : list (list string),
       Pandas.parse_rows (read_rows lib EnginePython) sep None content = inr rs →
       Forall (λ r, (length r ≤ 13)%nat) rs →
       ∃ df, fst (load_dataset lib fn sep w) = inr df
             ∧ Pandas.row_count df = length rs
             ∧ Forall (λ row, length row = 13%nat) (rows df)
             ∧ ∀ (i j : nat) (r : list string) (row : list (option PyVal)),
                 rs !! i = Some r → rows df !! i = Some row →
                 (length r ≤ j)%nat → (j < 13)%nat →
                 row !! j = Some None).
Proof.
  intros Hfile.
  assert (∀ rs : list (list string),
            Pandas.parse_rows (read_rows lib EnginePython) sep None content = inr rs →
            Forall (λ r, (length r ≤ 13)%nat) rs →
            ∃ df, fst (load_dataset lib fn sep w) = inr df
                  ∧ Pandas.row_count df = length rs
                  ∧ Forall (λ row, length row = 13%nat) (rows df)
                  ∧ ∀ (i j : nat) (r : list string) (row : list (option PyVal)),
                      rs !! i = Some r → rows df !! i = Some row →
                      (length r ≤ j)%nat → (j < 13)%nat →
                      row !! j = Some None) as Hshort.
  { intros rs Hparse Hrows.
    destruct (read_csv_short_rows (read_rows lib) (infer_cell lib) (files w) fn sep
                column_names EnginePython content rs Hfile Hparse Hrows)
      as (df & Hread & _ & Hdf).
    change (length column_names) with 13%nat in Hdf.
    exists df. rewrite load_dataset_unfold. simpl. split; [exact Hread|].
    split; [unfold Pandas.row_count; by rewrite Hdf, length_map|]. split.
    - rewrite Hdf. apply Forall_map, Forall_true. intros r.
      by rewrite length_map, length_seq.
    - intros i j r row Hr Hrow Hlen Hj. rewrite Hdf in Hrow.
      change (map ?f ?l) with (f <$> l) in Hrow.
      rewrite list_lookup_fmap, Hr in Hrow. apply (inj Some) in Hrow. subst row.
      rewrite cells_lookup by exact Hj. by rewrite cell_missing. }
  split; [|exact Hshort].
  intros all Hall Hlines Hwell.
  assert (Pandas.parse_rows (read_rows lib EnginePython) sep None content = inr all)
    as Hparse.
  { unfold Pandas.parse_rows. destruct content as [|c content].
    - destruct all; [done|discriminate Hlines].
    - rewrite Hall. f_equal. apply filter_all_kept.
      eapply Forall_impl; [exact Hwell|]. simpl. intros r Hr.
      destruct r as [|f [|g r]]; simpl in *; [discriminate|discriminate|reflexivity]. }
  destruct (Hshort all Hparse) as (df & Hdf & Hcount & _).
  - eapply Forall_impl; [exact Hwell|]. simpl. intros r ->. lia.
  - exists df. split; [exact Hdf|]. by rewrite Hcount.
Qed.

End Dataset.

(** ** The entry point *)

Section Emits.

Context {Rng : Type}.

Variable P : Event → bool.

Lemma pure_emits_only {A} (m : M Rng A) : pure m → emits_only P m.
Proof.
  intros Hm w. destruct (Hm w w) as [_ ->]. split; [|done].
  exists []. by rewrite app_nil_r.
Qed.

Lemma emits_only_ret {A} (a : A) : emits_only (Rng:=Rng) P (ret a).
Proof. intros w. split; [|done]. exists []. by rewrite app_nil_r. Qed.

Lemma emits_only_raise {A} (e : Exn) : emits_only (Rng:=Rng) (A:=A) P (raise e).
Proof. intros w. split; [|done]. exists []. by rewrite app_nil_r. Qed.

Lemma emits_only_lift {A} (r : Exn + A) : emits_only (Rng:=Rng) P (lift r).
Proof. intros w. split; [|done]. exists []. by rewrite app_nil_r. Qed.

Lemma emits_only_emit (e : Event) : P e = true → emits_only (Rng:=Rng) P (emit e).
Proof. intros He w. split; [|done]. exists [e]. simpl. by rewrite He. Qed.

Lemma emits_only_get_files : emits_only (Rng:=Rng) P get_files.
Proof. intros w. split; [|done]. exists []. by rewrite app_nil_r. Qed.

Lemma emits_only_get_level : emits_only (Rng:=Rng) P get_level.
Proof. intros w. split; [|done]. exists []. by rewrite app_nil_r. Qed.

Lemma emits_only_put_level (l : Z) : emits_only (Rng:=Rng) P (put_level l).
Proof. intros w. split; [|done]. exists []. by rewrite app_nil_r. Qed.

Lemma emits_only_global_name (n : string) : emits_only (Rng:=Rng) P (global_name n).
Proof.
  unfold global_name. destruct (bound n); [apply emits_only_ret|apply emits_only_raise].
Qed.

Lemma emits_only_bind {A B} (m : M Rng A) (k : A → M Rng B) :
  emits_only P m → (∀ a, emits_only P (k a)) → emits_only P (bind m k).
Proof.
  intros Hm Hk w. unfold bind.
  destruct (Hm w) as [(evs & Ht & Hevs) Hr].
  destruct (m w) as [[e|a] w1]; simpl in *; [by eauto|].
  destruct (Hk a w1) as [(evs' & Ht' & Hevs') Hr'].
  split; [|congruence].
  exists (evs ++ evs')%list. rewrite Ht', Ht, <- app_assoc. split; [done|].
  rewrite forallb_app. by rewrite Hevs, Hevs'.
Qed.

End Emits.

(** Walks down a chain of binds, splitting on branches. *)
Ltac emits :=
  repeat match goal with
         | |- emits_only _ (bind _ _) => apply emits_only_bind; [|intros ?]
         | |- emits_only _ (emit _) => apply emits_only_emit; reflexivity
         | |- emits_only _ (ret _) => apply emits_only_ret
         | |- emits_only _ (raise _) => apply emits_only_raise
         | |- emits_only _ (lift _) => apply emits_only_lift
         | |- emits_only _ get_files => apply emits_only_get_files
         | |- emits_only _ get_level => apply emits_only_get_level
         | |- emits_only _ (put_level _) => apply emits_only_put_level
         | |- emits_only _ (global_name _) => apply emits_only_global_name
         | |- emits_only _ (if ?c then _ else _) => destruct c
         | |- emits_only _ (match ?x with _ => _ end) => destruct x
         end.

Section Main.

Context {Model Rng : Type} (lib : Lib Model Rng).

(** C4.  Whatever the command line, the files and the libraries, a run of
    the entry point makes no call that loads the embeddings, seeds the
    generator, builds, compiles or fits a network: the calls it makes are
    to [docopt], [logging], [open], [json.load] and the table reader, and
    the generator is left as it was.  No orchestrator is constructed and
    [train] is not run. *)
Theorem main_neither_constructs_nor_trains (argv : list string) :
  emits_only (λ e, negb (builds_or_trains e)) (main lib argv).
Proof.
  unfold main, logging_basicConfig, logging_debug, open_read, json_load, load_dataset,
    pd_read_csv, getitem.
  emits.
Qed.

End Main.

(** ** Two runs side by side *)

Section Relational.

Context {Rng : Type}.

Local Abbreviation M := (M Rng).

Lemma bind_ret_l {A B} (a : A) (k : A → M B) : bind (ret a) k = k a.
Proof. reflexivity. Qed.

Lemma same_run_weaken (b : bool) (w1 w2 : World Rng) :
  same_run true w1 w2 → same_run b w1 w2.
Proof. intros [Hf Hr]. split; [done|]. intros _. by apply Hr. Qed.

Lemma rel_bind {A1 A2 B1 B2} (b b' b'' : bool) (R : A1 → A2 → Prop) (R' : B1 → B2 → Prop)
    (m1 : M A1) (m2 : M A2) (k1 : A1 → M B1) (k2 : A2 → M B2) :
  rel b b' R m1 m2 →
  (∀ a1 a2, R a1 a2 → rel b' b'' R' (k1 a1) (k2 a2)) →
  rel b b'' R' (bind m1 k1) (bind m2 k2).
Proof.
  intros Hm Hk w1 w2 Hw. specialize (Hm w1 w2 Hw). unfold bind.
  destruct (m1 w1) as [[e1|a1] w1'], (m2 w2) as [[e2|a2] w2']; simpl in *; try done.
  destruct Hm as [HR Hw']. exact (Hk a1 a2 HR w1' w2' Hw').
Qed.

Lemma rel_weaken {A1 A2} (b b' : bool) (R R' : A1 → A2 → Prop) (m1 : M A1) (m2 : M A2) :
  rel b b' R m1 m2 → (∀ a1 a2, R a1 a2 → R' a1 a2) → rel b b' R' m1 m2.
Proof.
  intros Hm HR w1 w2 Hw. specialize (Hm w1 w2 Hw).
  destruct (fst (m1 w1)), (fst (m2 w2)); try done. destruct Hm; auto.
Qed.

(** Two computations that leave the process alone and whose outcomes are
    related whatever the process is. *)
Lemma rel_untouched {A1 A2} (b : bool) (R : A1 → A2 → Prop) (m1 : M A1) (m2 : M A2) :
  (∀ w, snd (m1 w) = w) → (∀ w, snd (m2 w) = w) →
  (∀ w1 w2, match fst (m1 w1), fst (m2 w2) with
            | inl e1, inl e2 => e1 = e2
            | inr a1, inr a2 => R a1 a2
            | _, _ => False
            end) →
  rel b b R m1 m2.
Proof.
  intros H1 H2 HR w1 w2 Hw. specialize (HR w1 w2). rewrite H1, H2.
  destruct (fst (m1 w1)), (fst (m2 w2)); done.
Qed.

Lemma rel_pure {A} (b : bool) (m : M A) : pure m → rel b b eq m m.
Proof.
  intros Hm. apply rel_untouched; try (intros w; apply (Hm w w)).
  intros w1 w2. destruct (Hm w1 w2) as [-> _]. by destruct (fst (m w2)).
Qed.

Lemma rel_pure_returns {A} (b : bool) (Q : A → Prop) (m : M A) :
  pure m → returns Q m → rel b b (λ a1 a2, a1 = a2 ∧ Q a1) m m.
Proof.
  intros Hm HQ. apply rel_untouched; try (intros w; apply (Hm w w)).
  intros w1 w2. destruct (Hm w1 w2) as [Hfst _]. rewrite Hfst.
  destruct (m w2) as [[e|a] w'] eqn:Hrun; simpl; [done|].
  split; [done|]. exact (HQ w2 a w' Hrun).
Qed.

Lemma rel_ret {A1 A2} (b : bool) (R : A1 → A2 → Prop) (a1 : A1) (a2 : A2) :
  R a1 a2 → rel (Rng:=Rng) b b R (ret a1) (ret a2).
Proof. intros HR w1 w2 Hw. by simpl. Qed.

Lemma rel_lift {A} (b : bool) (r : Exn + A) : rel (Rng:=Rng) b b eq (lift r) (lift r).
Proof. intros w1 w2 Hw. simpl. by destruct r. Qed.

Lemma rel_emit (b : bool) (e1 e2 : Event) :
  rel (Rng:=Rng) b b (λ _ _, True) (emit e1) (emit e2).
Proof. intros w1 w2 Hw. by simpl. Qed.

Lemma rel_get_files (b : bool) : rel b b eq (get_files (Rng:=Rng)) get_files.
Proof. intros w1 w2 Hw. simpl. split; [apply Hw|done]. Qed.

Lemma rel_get_rng : rel true true eq (get_rng (Rng:=Rng)) get_rng.
Proof. intros w1 w2 Hw. simpl. split; [by apply Hw|done]. Qed.

Lemma rel_put_rng (b : bool) (r : Rng) : rel b true (λ _ _, True) (put_rng r) (put_rng r).
Proof. intros w1 w2 [Hf _]. simpl. by repeat split. Qed.

Lemma rel_silent {A1 A2} (b : bool) (m1 : M A1) (m2 : M A2) :
  silent m1 → silent m2 → rel b b (λ _ _, True) m1 m2.
Proof.
  intros H1 H2 w1 w2 [Hf Hr].
  destruct (H1 w1) as ([a1 ->] & Hr1 & Hf1), (H2 w2) as ([a2 ->] & Hr2 & Hf2).
  split; [done|]. split; [congruence|]. intros Hb. rewrite Hr1, Hr2. by apply Hr.
Qed.

Lemma pure_ret {A} (a : A) : pure (Rng:=Rng) (ret a).
Proof. by intros w1 w2. Qed.

Lemma pure_raise {A} (e : Exn) : pure (Rng:=Rng) (A:=A) (raise e).
Proof. by intros w1 w2. Qed.

Lemma pure_bind {A B} (m : M A) (k : A → M B) :
  pure m → (∀ a, pure (k a)) → pure (bind m k).
Proof.
  intros Hm Hk w1 w2. unfold bind.
  destruct (Hm w1 w2) as [Hf Hs1]. destruct (Hm w2 w1) as [_ Hs2].
  destruct (m w1) as [r1 w1'], (m w2) as [r2 w2']. simpl in *. subst.
  destruct r2 as [e|a]; [done|apply Hk].
Qed.

Lemma pure_global_name (n : string) : pure (Rng:=Rng) (global_name n).
Proof. unfold global_name. destruct (bound n); [apply pure_ret|apply pure_raise]. Qed.

End Relational.

(** Discharges purity goals along the structure of the computation. *)
Ltac purity :=
  repeat first
    [ apply pure_bind; [|intros ?]
    | apply pure_ret
    | apply pure_raise
    | apply pure_global_name
    | case_match ].

(** ** Seeding *)

Section Seeding.

Context {Model Rng : Type} (lib : Lib Model Rng).

Lemma pure_self_args (self : Instance Model) (k : string) :
  pure (Rng:=Rng) (self_args self k).
Proof. unfold self_args, getattr, as_dict, subscript. purity. Qed.

Lemma pure_emb_dim (self : Instance Model) :
  pure (Rng:=Rng) (e <- getattr self "emb";; e <- as_emb e;; ret (PyInt (dim e))).
Proof. unfold getattr, as_emb. purity. Qed.

Lemma silent_get_level : silent (get_level (Rng:=Rng)).
Proof. intros w. simpl. eauto. Qed.

Lemma silent_summary_if (c : bool) (model : Model) :
  silent (Rng:=Rng) (if c then summary lib model else ret tt).
Proof. intros w. destruct c; simpl; eauto. Qed.

Lemma rel_new_Glove (b : bool) (fn : PyVal) :
  rel b b eq (new_Glove lib fn) (new_Glove lib fn).
Proof.
  unfold new_Glove.
  eapply rel_bind; [apply rel_pure, pure_global_name|intros _ _ _].
  eapply rel_bind; [apply rel_emit|intros _ _ _].
  eapply rel_bind; [apply rel_get_files|intros fs ? <-].
  apply rel_lift.
Qed.

Lemma rel_np_random_seed (b : bool) (seed : PyVal) :
  seed ≠ PyNone →
  rel b true (λ _ _, True) (np_random_seed lib seed) (np_random_seed lib seed).
Proof.
  intros Hseed. unfold np_random_seed.
  eapply rel_bind; [apply rel_pure, pure_global_name|intros _ _ _].
  eapply rel_bind; [apply rel_emit|intros _ _ _].
  destruct seed; try done;
    (eapply rel_bind; [apply rel_lift|intros r ? <-]; apply rel_put_rng).
Qed.

Lemma rel_new_network (cls : string)
    (ctor : list (string * PyVal) → Rng → Exn + (Model * Rng))
    (kwargs : list (string * PyVal)) :
  rel true true eq (new_network cls ctor kwargs) (new_network cls ctor kwargs).
Proof.
  unfold new_network.
  eapply rel_bind; [apply rel_pure, pure_global_name|intros _ _ _].
  eapply rel_bind; [apply rel_emit|intros _ _ _].
  eapply rel_bind; [apply rel_get_rng|intros r ? <-].
  eapply rel_bind; [apply rel_lift|intros mr ? <-].
  eapply rel_bind; [apply rel_put_rng|intros _ _ _].
  by apply rel_ret.
Qed.

Lemma rel_compile_model
    (input_length input_depth input_dim hidden_dim output_length output_depth
     output_dim peek attention loss optimizer : PyVal) :
  rel true true eq
    (compile_model lib input_length input_depth input_dim hidden_dim output_length
       output_depth output_dim peek attention loss optimizer)
    (compile_model lib input_length input_depth input_dim hidden_dim output_length
       output_depth output_dim peek attention loss optimizer).
Proof.
  unfold compile_model.
  eapply rel_bind; [destruct (Py.truthy attention); apply rel_new_network|].
  intros model ? <-. unfold compile.
  eapply rel_bind.
  { eapply rel_bind; [apply rel_emit|intros _ _ _]. apply rel_lift. }
  intros model' ? <-.
  eapply rel_bind; [apply rel_pure, pure_global_name|intros _ _ _].
  eapply rel_bind; [apply rel_silent; apply silent_get_level|intros l1 l2 _].
  eapply rel_bind; [apply rel_silent; apply silent_summary_if|intros _ _ _].
  by apply rel_ret.
Qed.

Lemma self_args_returns (self : Instance Model) (d : gmap string PyVal) (k : string)
    (v : PyVal) :
  self !! "args" = Some (VDict d) → d !! k = Some v →
  returns (Rng:=Rng) (λ a, a = v) (self_args self k).
Proof.
  intros Hself Hk w a w'. unfold self_args, getattr. rewrite Hself.
  rewrite bind_ret_l. simpl. rewrite bind_ret_l. unfold subscript. rewrite Hk.
  by intros [= <- _].
Qed.

Lemma rel_init (args : gmap string PyVal) (s : Z) :
  args !! "seed" = Some (PyInt s) →
  rel false true eq (__init__ lib args) (__init__ lib args).
Proof.
  intros Hseed. unfold __init__.
  eapply rel_bind; [apply rel_pure, pure_self_args|intros sep ? <-].
  eapply rel_bind; [apply rel_pure, pure_global_name|intros _ _ _].
  eapply rel_bind; [apply rel_pure, pure_self_args|intros emb_fn ? <-].
  eapply rel_bind; [apply rel_new_Glove|intros emb ? <-].
  eapply rel_bind; [apply rel_pure, pure_self_args|intros epochs ? <-].
  eapply rel_bind.
  { apply (rel_pure_returns _ (λ a, a = PyInt s)); [apply pure_self_args|].
    eapply self_args_returns; [|exact Hseed]. by simplify_map_eq. }
  intros seed ? [<- ->].
  eapply rel_bind; [by apply rel_np_random_seed|intros _ _ _].
  eapply rel_bind; [apply rel_pure, pure_global_name|intros _ _ _].
  eapply rel_bind; [apply rel_pure, pure_self_args|intros input_length ? <-].
  eapply rel_bind; [apply rel_pure, pure_self_args|intros input_depth ? <-].
  eapply rel_bind; [apply rel_pure, pure_emb_dim|intros input_dim ? <-].
  eapply rel_bind; [apply rel_pure, pure_self_args|intros hidden_dim ? <-].
  eapply rel_bind; [apply rel_pure, pure_self_args|intros output_length ? <-].
  eapply rel_bind; [apply rel_pure, pure_self_args|intros output_depth ? <-].
  eapply rel_bind; [apply rel_pure, pure_emb_dim|intros output_dim ? <-].
  eapply rel_bind; [apply rel_pure, pure_self_args|intros peek ? <-].
  eapply rel_bind; [apply rel_pure, pure_self_args|intros attention ? <-].
  eapply rel_bind; [apply rel_pure, pure_self_args|intros loss ? <-].
  eapply rel_bind; [apply rel_pure, pure_self_args|intros optimizer ? <-].
  eapply rel_bind; [apply rel_compile_model|intros model ? <-].
  by apply rel_ret.
Qed.

(** C8.  Take two runs of [__init__] on the same keyword arguments, whose
    seed is an integer, in two processes that have the same files and may
    differ in everything else (the state of the generator, the entropy of
    the system, the logging level).  They raise the same exception, or both
    return, the same instance, and leave the generator in the same state,
    so that any number of draws that follow are the same in both. *)
Theorem construct_seed_determinism (args : gmap string PyVal) (s : Z)
    (w1 w2 : World Rng) :
  args !! "seed" = Some (PyInt s) →
  files w1 = files w2 →
  match fst (__init__ lib args w1), fst (__init__ lib args w2) with
  | inl e1, inl e2 => e1 = e2
  | inr o1, inr o2 =>
      o1 = o2
      ∧ rng (snd (__init__ lib args w1)) = rng (snd (__init__ lib args w2))
      ∧ ∀ n, draws lib n (rng (snd (__init__ lib args w1)))
             = draws lib n (rng (snd (__init__ lib args w2)))
  | _, _ => False
  end.
Proof.
  intros Hseed Hfiles.
  pose proof (rel_init args s Hseed w1 w2) as Hrel.
  destruct (fst (__init__ lib args w1)), (fst (__init__ lib args w2));
    try (apply Hrel; by split).
  destruct Hrel as [-> [_ Hrng]]; [by split|].
  specialize (Hrng eq_refl). split; [done|]. split; [done|].
  intros n. by rewrite Hrng.
Qed.

End Seeding.

(** ** The constructor *)

Section Running.

Context {Rng : Type}.

Lemma run_bind {A B} (m : M Rng A) (k : A → M Rng B) (w w' : World Rng) (a : A) :
  m w = (inr a, w') → bind m k w = k a w'.
Proof. intros H. unfold bind. by rewrite H. Qed.

Lemma run_bind_ext {A B} (m : M Rng A) (k1 k2 : A → M Rng B) (w : World Rng) :
  (∀ a w', k1 a w' = k2 a w') → bind m k1 w = bind m k2 w.
Proof. intros H. unfold bind. destruct (m w) as [[e|a] w']; [done|apply H]. Qed.

End Running.

Section Constructor.

Context {Model Rng : Type} (lib : Lib Model Rng).

Lemma run_self_args (self : Instance Model) (d : gmap string PyVal) (k : string)
    (v : PyVal) (w : World Rng) :
  self !! "args" = Some (VDict d) → d !! k = Some v → self_args self k w = (inr v, w).
Proof.
  intros Hself Hk. unfold self_args, getattr. rewrite Hself.
  rewrite bind_ret_l. simpl. rewrite bind_ret_l. unfold subscript. by rewrite Hk.
Qed.

Lemma run_emb_dim (self : Instance Model) (e : Emb) (w : World Rng) :
  self !! "emb" = Some (VEmb e) →
  (e <- getattr self "emb";; e <- as_emb e;; ret (PyInt (dim e))) w
  = (inr (PyInt (dim e)), w).
Proof. intros Hself. unfold getattr. by rewrite Hself. Qed.

Lemma required_key_lookup (args : gmap string PyVal) (k : string) :
  Forall (λ k, is_Some (args !! k)) required_keys → k ∈ required_keys →
  args !! k = Some (args !!! k).
Proof.
  intros Hall Hk. apply lookup_lookup_total.
  by apply (proj1 (Forall_forall _ _) Hall).
Qed.

End Constructor.

(** Runs the next attribute or keyword lookup of [__init__]. *)
Ltac run_lookup Hkeys :=
  first
    [ erewrite run_bind;
        [|eapply run_self_args;
          [by simplify_map_eq
          |apply (required_key_lookup _ _ Hkeys); unfold required_keys; set_solver]]
    | erewrite run_bind; [|eapply run_emb_dim; by simplify_map_eq] ].

Section Construct.

Context {Model Rng : Type} (lib : Lib Model Rng).


End Construct.

(** ** The delimiter *)

Section Agreement.

Context {Rng : Type}.

Local Abbreviation M := (M Rng).

Lemma agree_refl {A} (m : M A) : agree eq m m.
Proof. intros w. by destruct (m w) as [[e|a] w']. Qed.

Lemma agree_ret {A B} (R : A → B → Prop) (a : A) (b : B) :
  R a b → agree (Rng:=Rng) R (ret a) (ret b).
Proof. intros HR w. by simpl. Qed.

Lemma agree_bind {A1 A2 B1 B2} (R : A1 → A2 → Prop) (R' : B1 → B2 → Prop)
    (m1 : M A1) (m2 : M A2) (k1 : A1 → M B1) (k2 : A2 → M B2) :
  agree R m1 m2 → (∀ a1 a2, R a1 a2 → agree R' (k1 a1) (k2 a2)) →
  agree R' (bind m1 k1) (bind m2 k2).
Proof.
  intros Hm Hk w. specialize (Hm w). unfold bind.
  destruct (m1 w) as [[e1|a1] w1], (m2 w) as [[e2|a2] w2]; try done.
  destruct Hm as [HR <-]. apply (Hk a1 a2 HR).
Qed.

End Agreement.

Section Delimiter.

Context {Model Rng : Type} (lib : Lib Model Rng).

Lemma agree_self_args (R : PyVal → PyVal → Prop) (self1 self2 : Instance Model)
    (d1 d2 : gmap string PyVal) (k : string) :
  self1 !! "args" = Some (VDict d1) → self2 !! "args" = Some (VDict d2) →
  match d1 !! k, d2 !! k with
  | Some a1, Some a2 => R a1 a2
  | None, None => True
  | _, _ => False
  end →
  agree (Rng:=Rng) R (self_args self1 k) (self_args self2 k).
Proof.
  intros H1 H2 HR w. unfold self_args, getattr. rewrite H1, H2.
  rewrite !bind_ret_l. simpl. rewrite !bind_ret_l. unfold subscript.
  by destruct (d1 !! k), (d2 !! k).
Qed.

Lemma agree_emb_dim (self1 self2 : Instance Model) (e : Emb) :
  self1 !! "emb" = Some (VEmb e) → self2 !! "emb" = Some (VEmb e) →
  agree (Rng:=Rng) eq
    (e <- getattr self1 "emb";; e <- as_emb e;; ret (PyInt (dim e)))
    (e <- getattr self2 "emb";; e <- as_emb e;; ret (PyInt (dim e))).
Proof. intros H1 H2 w. unfold getattr. by rewrite H1, H2. Qed.

End Delimiter.

(** Relates the same lookup in two instances whose keyword dictionaries
    differ at ["sep"] only. *)
Ltac same_lookup :=
  eapply agree_bind;
    [ first
        [ eapply (agree_self_args eq);
            [by simplify_map_eq|by simplify_map_eq
            |rewrite !lookup_insert_ne by done; by case_match]
        | eapply agree_emb_dim; by simplify_map_eq ]
    | intros ? ? <- ].

(** Relates a step that is the same computation on both sides. *)
Ltac same_step := eapply agree_bind; [apply agree_refl|intros ? ? <-].

Section Sep.

Context {Model Rng : Type} (lib : Lib Model Rng).

Lemma agree_init_sep (args : gmap string PyVal) (v v' : PyVal) :
  agree
    (λ o1 o2 : Instance Model,
       o1 !! "sep" = Some (VPy (PyStr (Py.str v)))
       ∧ o2 !! "sep" = Some (VPy (PyStr (Py.str v'))))
    (__init__ lib (<["sep" := v]> args)) (__init__ lib (<["sep" := v']> args)).
Proof.
  unfold __init__.
  eapply agree_bind.
  { eapply (agree_self_args (λ a1 a2, a1 = v ∧ a2 = v'));
      [by simplify_map_eq|by simplify_map_eq|by rewrite !lookup_insert_eq]. }
  intros sep1 sep2 [-> ->].
  same_step. same_lookup. same_step. same_lookup. same_lookup. same_step. same_step.
  do 11 same_lookup.
  same_step.
  apply agree_ret. by simplify_map_eq.
Qed.

End Sep.

Section Coercion.

Context {Model Rng : Type} (lib : Lib Model Rng).

Lemma main_reads_with_str_sep (argv : list string) (cli : CliArgs) (content : string)
    (j hp v : PyVal) (w : World Rng) :
  docopt lib __doc__ argv = inr cli →
  files w !! cli_hyperparams cli = Some content →
  json_loads lib content = inr j →
  item j "hyperparams" = inr hp →
  item hp "sep" = inr v →
  fst (main lib argv w)
  = Pandas.read_csv (read_rows lib) (infer_cell lib) (files w) (cli_train cli) (Py.str v) None
      column_names EnginePython.
Proof.
  intros Hcli Hfile Hjson Hhp Hsep.
  unfold main, logging_basicConfig, logging_debug, open_read, json_load, getitem,
    load_dataset, pd_read_csv.
  resolve_names.
  unfold bind, ret, emit, lift, get_level, put_level, get_files. simpl.
  rewrite Hcli. simpl.
  destruct (_ <=? DEBUG)%Z; simpl; rewrite Hfile, Hjson, Hhp; simpl;
    (destruct (_ <=? DEBUG)%Z; simpl; by rewrite Hsep).
Qed.

(** C10.  The value under ["sep"] is turned into a string by [str] and is
    otherwise not looked at.  In [__init__], whatever two values [v] and
    [v'] stand under ["sep"], the two runs raise the same exception or both
    return, in the same process state, and the instance holds [str(v)] as
    its [sep]: no value is rejected for being no string.  In the entry
    point, the table is read with [str(v)] as the delimiter.  So [None] is
    taken as the delimiter ["None"], [True] as ["True"], [5] as ["5"]. *)
Theorem sep_is_coerced_not_validated (args : gmap string PyVal) (v v' : PyVal)
    (w : World Rng) :
  match __init__ lib (<["sep" := v]> args) w, __init__ lib (<["sep" := v']> args) w with
  | (inl e1, w1), (inl e2, w2) => e1 = e2 ∧ w1 = w2
  | (inr o1, w1), (inr o2, w2) =>
      (o1 !! "sep" = Some (VPy (PyStr (Py.str v)))
       ∧ o2 !! "sep" = Some (VPy (PyStr (Py.str v'))))
      ∧ w1 = w2
  | _, _ => False
  end
  ∧ (∀ (argv : list string) (cli : CliArgs) (content : string) (j hp : PyVal),
       docopt lib __doc__ argv = inr cli →
       files w !! cli_hyperparams cli = Some content →
       json_loads lib content = inr j →
       item j "hyperparams" = inr hp →
       item hp "sep" = inr v →
       fst (main lib argv w)
       = Pandas.read_csv (read_rows lib) (infer_cell lib) (files w) (cli_train cli) (Py.str v) None
           column_names EnginePython)
  ∧ Py.str PyNone = "None"
  ∧ Py.str (PyBool true) = "True"
  ∧ Py.str (PyBool false) = "False"
  ∧ Py.str (PyInt 5) = "5"
  ∧ Py.str (PyFloat "0.5") = "0.5".
Proof.
  split; [apply agree_init_sep|].
  split; [intros; by eapply main_reads_with_str_sep|].
  repeat split; by vm_compute.
Qed.

End Coercion.

(** ** Runs on the fixtures *)

Section Fixtures.

Local Abbreviation w0 := (Toy.world 0 WARNING).

(** The attention factory on the fixture dimensions builds the same network
    for both values of [peek] (C1, evaluated). *)
Example compile_model_fixture :
  fst (compile_model Toy.lib (PyInt 3) (PyInt 1) (PyInt 2) (PyInt 4) (PyInt 5) (PyInt 1)
         (PyInt 2) (PyBool true) (PyBool true) (PyStr "mse") (PyStr "adam") w0)
  = inr (Toy.mkNetwork "AttentionSeq2Seq"
           (shared_kwargs (PyInt 3) (PyInt 1) (PyInt 2) (PyInt 4) (PyInt 5) (PyInt 1)
              (PyInt 2))
           12345 (Some (PyStr "mse", PyStr "adam"))).
Proof. by vm_compute. Qed.

(** The entry point on the fixture command line: five calls, none of them
    to a network (C4, evaluated). *)
Example main_fixture_trace :
  trace (snd (main Toy.lib Toy.argv w0))
  = [EvDocopt Toy.argv; EvBasicConfig INFO; EvOpen "model.json"; EvJsonLoad;
     EvReadCsv "train.tsv" Toy.tab column_names].
Proof. by vm_compute. Qed.

(** C3, refuted as stated.  The second row of the fixture has two fields,
    fewer than thirteen, and [load_dataset] raises no parse error: it
    returns a table of two rows, the second filled with missing values. *)
Lemma load_dataset_short_row_is_no_error :
  (∃ all, read_rows Toy.lib EnginePython Toy.tab Toy.short_tsv = inr all
          ∧ Exists (λ r, (length r < 13)%nat) all)
  ∧ files w0 !! "short.tsv" = Some Toy.short_tsv
  ∧ (∀ expected saw,
       fst (load_dataset Toy.lib "short.tsv" Toy.tab w0) ≠ inl (ParserError expected saw))
  ∧ ∃ df, fst (load_dataset Toy.lib "short.tsv" Toy.tab w0) = inr df
          ∧ Pandas.row_count df = 2%nat
          ∧ rows df !! 1%nat
            = Some (Some (PyStr "second") :: Some (PyStr "be") :: replicate 11 None).
Proof.
  split.
  { eexists. split; [vm_compute; reflexivity|].
    apply Exists_cons_tl, Exists_cons_hd. vm_compute. lia. }
  split; [by vm_compute|].
  split; [intros expected saw; by vm_compute|].
  eexists. split; [by vm_compute|]. split; by vm_compute.
Qed.


End Fixtures.

(** ** The theorems at the fixtures *)

Section Witnesses.

Local Abbreviation w0 := (Toy.world 0 WARNING).


Lemma load_dataset_row_count_witness :
  files w0 !! "train.tsv" = Some Toy.train_tsv
  ∧ files w0 !! "short.tsv" = Some Toy.short_tsv
  ∧ (∃ df, fst (load_dataset Toy.lib "train.tsv" Toy.tab w0) = inr df
           ∧ Pandas.row_count df = length (Text.lines Toy.train_tsv))
  ∧ (∃ df, fst (load_dataset Toy.lib "short.tsv" Toy.tab w0) = inr df
           ∧ Pandas.row_count df = 2%nat
           ∧ Forall (λ row, length row = 13%nat) (rows df)
           ∧ ∀ (i j : nat) (r : list string) (row : list (option PyVal)),
               [Toy.split_on "009" (Toy.row13 "first"); ["second"; "be"]] !! i = Some r →
               rows df !! i = Some row →
               (length r ≤ j)%nat → (j < 13)%nat →
               row !! j = Some None).
Proof.
  split; [vm_compute; reflexivity|]. split; [vm_compute; reflexivity|]. split.
  - eapply (proj1 (load_dataset_row_count Toy.lib "train.tsv" Toy.tab Toy.train_tsv w0
                     ltac:(vm_compute; reflexivity))).
    + vm_compute. reflexivity.
    + vm_compute. reflexivity.
    + repeat constructor.
  - apply (proj2 (load_dataset_row_count Toy.lib "short.tsv" Toy.tab Toy.short_tsv w0
                    ltac:(vm_compute; reflexivity))
             [Toy.split_on "009" (Toy.row13 "first"); ["second"; "be"]]).
    + vm_compute. reflexivity.
    + repeat constructor; vm_compute; lia.
Defined.



Lemma construct_seed_determinism_witness :
  Toy.args !! "seed" = Some (PyInt 42)
  ∧ files (Toy.world 0 WARNING) = files (Toy.world 99 DEBUG)
  ∧ match fst (__init__ Toy.lib Toy.args (Toy.world 0 WARNING)),
          fst (__init__ Toy.lib Toy.args (Toy.world 99 DEBUG)) with
    | inl e1, inl e2 => e1 = e2
    | inr o1, inr o2 =>
        o1 = o2
        ∧ rng (snd (__init__ Toy.lib Toy.args (Toy.world 0 WARNING)))
          = rng (snd (__init__ Toy.lib Toy.args (Toy.world 99 DEBUG)))
        ∧ ∀ n, draws Toy.lib n (rng (snd (__init__ Toy.lib Toy.args (Toy.world 0 WARNING))))
               = draws Toy.lib n (rng (snd (__init__ Toy.lib Toy.args (Toy.world 99 DEBUG))))
    | _, _ => False
    end.
Proof.
  split; [vm_compute; reflexivity|]. split; [reflexivity|].
  apply (construct_seed_determinism Toy.lib Toy.args 42); [vm_compute|]; reflexivity.
Defined.

Lemma get_callbacks_always_raises_witness :
  ∃ o w', __init__ Toy.lib Toy.args w0 = (inr o, w')
          ∧ getattr o "model_dir" w' = (inl (AttributeError "model_dir"), w')
          ∧ get_callbacks Toy.lib o (VPy PyNone) w' = (inl (NameError "os"), w').
Proof.
  destruct (__init__ Toy.lib Toy.args w0) as [[e|o] w'] eqn:Hinit;
    [vm_compute in Hinit; discriminate|].
  exists o, w'. split; [reflexivity|].
  destruct (get_callbacks_always_raises Toy.lib) as (Hraise & _ & _ & _ & Hattr).
  split; [exact (Hattr Toy.args w0 w' o Hinit)|apply Hraise].
Defined.

Lemma sep_is_coerced_not_validated_witness :
  docopt Toy.lib __doc__ Toy.argv_numeric
  = inr (mkCli "train.tsv" "dev.tsv" "test.tsv" "numeric.json" "out" false)
  ∧ files w0 !! "numeric.json" = Some "numeric-sep-fixture"
  ∧ json_loads Toy.lib "numeric-sep-fixture"
    = inr (PyDict [("hyperparams", PyDict [("sep", PyInt 5)])])
  ∧ item (PyDict [("hyperparams", PyDict [("sep", PyInt 5)])]) "hyperparams"
    = inr (PyDict [("sep", PyInt 5)])
  ∧ item (PyDict [("sep", PyInt 5)]) "sep" = inr (PyInt 5)
  ∧ fst (main Toy.lib Toy.argv_numeric w0)
    = Pandas.read_csv (read_rows Toy.lib) (infer_cell Toy.lib) (files w0) "train.tsv" (Py.str (PyInt 5)) None
        column_names EnginePython.
Proof.
  repeat (split; [vm_compute; reflexivity|]).
  destruct (sep_is_coerced_not_validated Toy.lib Toy.args (PyInt 5) (PyStr Toy.tab) w0)
    as (_ & Hmain & _).
  apply (Hmain Toy.argv_numeric
           (mkCli "train.tsv" "dev.tsv" "test.tsv" "numeric.json" "out" false)
           "numeric-sep-fixture" (PyDict [("hyperparams", PyDict [("sep", PyInt 5)])])
           (PyDict [("sep", PyInt 5)])); vm_compute; reflexivity.
Defined.

End Witnesses.

(** ** More on the constructor *)

Section ConstructorKeys.

Context {Model Rng : Type} (lib : Lib Model Rng).

Lemma self_args_inv (self : Instance Model) (d : gmap string PyVal) (k : string)
    (a : PyVal) (w w' : World Rng) :
  self !! "args" = Some (VDict d) → self_args self k w = (inr a, w') → d !! k = Some a.
Proof.
  intros Hself. unfold self_args, getattr. rewrite Hself.
  rewrite bind_ret_l. simpl. rewrite bind_ret_l. unfold subscript.
  destruct (d !! k); [|discriminate]. by intros [= <- _].
Qed.



End ConstructorKeys.

(** Steps over a keyword lookup of [__init__] that returned, keeping what
    it says about the keyword dictionary. *)
Ltac returned_lookup :=
  apply returns_bind;
  let a := fresh "a" in let w1 := fresh "w" in let w2 := fresh "w" in
  let H := fresh "Hkey" in
  intros a w1 w2 H;
  first [ eapply self_args_inv in H; [|by simplify_map_eq] | clear H ].

Section ConstructorMore.

Context {Model Rng : Type} (lib : Lib Model Rng).

Lemma init_returns_with_keys (args : gmap string PyVal) :
  returns (λ _ : Instance Model, Forall (λ k, is_Some (args !! k)) required_keys)
    (__init__ lib args).
Proof.
  unfold __init__.
  do 20 returned_lookup.
  apply returns_ret. unfold required_keys.
  repeat (apply Forall_cons_2; [eexists; eassumption|]). apply Forall_nil_2.
Qed.

(** X1.  [__init__] returns an instance only on keyword arguments that have
    all thirteen keys it reads. *)
Theorem construct_returns_only_with_required_keys (args : gmap string PyVal)
    (w w' : World Rng) (o : Instance Model) :
  __init__ lib args w = (inr o, w') →
  Forall (λ k, is_Some (args !! k)) required_keys.
Proof. apply init_returns_with_keys. Qed.

End ConstructorMore.




Section FactoryMore.

Context {Model Rng : Type} (lib : Lib Model Rng).

Lemma compile_model_success
    (input_length input_depth input_dim hidden_dim output_length output_depth
     output_dim peek attention loss optimizer : PyVal) (w w' : World Rng) (model : Model) :
  compile_model lib input_length input_depth input_dim hidden_dim output_length
    output_depth output_dim peek attention loss optimizer w = (inr model, w') →
  trace w'
  = (trace w
     ++ [EvNew (if Py.truthy attention then "AttentionSeq2Seq" else "Seq2Seq")
           (if Py.truthy attention
            then shared_kwargs input_length input_depth input_dim hidden_dim output_length
                   output_depth output_dim
            else ("peek", peek)
                 :: shared_kwargs input_length input_depth input_dim hidden_dim
                      output_length output_depth output_dim);
         EvCompile loss optimizer]
     ++ (if (log_level w =? DEBUG)%Z then [EvSummary (model_summary lib model)] else []))%list
  ∧ log_level w' = log_level w ∧ files w' = files w ∧ urandom w' = urandom w.
Proof.
  unfold compile_model, new_network, compile, summary. resolve_names.
  destruct (Py.truthy attention); simpl;
    unfold bind, ret, emit, get_rng, put_rng, get_level, lift; simpl.
  - destruct (AttentionSeq2Seq lib _ _) as [e|[m r]]; simpl; [discriminate|].
    destruct (model_compile lib m loss optimizer) as [e|m']; simpl; [discriminate|].
    destruct (log_level w =? DEBUG)%Z; simpl; intros [= <- <-]; simpl;
      rewrite <- ?app_assoc; simpl; repeat split; reflexivity.
  - destruct (Seq2Seq lib _ _) as [e|[m r]]; simpl; [discriminate|].
    destruct (model_compile lib m loss optimizer) as [e|m']; simpl; [discriminate|].
    destruct (log_level w =? DEBUG)%Z; simpl; intros [= <- <-]; simpl;
      rewrite <- ?app_assoc; simpl; repeat split; reflexivity.
Qed.

(** X2.  When [compile_model] returns, the calls it made are the
    constructor, [compile], and [summary] exactly when the level of the root
    logger equals [DEBUG]: at any other level, lower ones such as [NOTSET]
    included, no summary is printed. *)
Theorem compile_model_summary_iff_debug
    (input_length input_depth input_dim hidden_dim output_length output_depth
     output_dim peek attention loss optimizer : PyVal) (w w' : World Rng) (model : Model) :
  compile_model lib input_length input_depth input_dim hidden_dim output_length
    output_depth output_dim peek attention loss optimizer w = (inr model, w') →
  ∃ cls kwargs,
    trace w'
    = (trace w ++ EvNew cls kwargs :: EvCompile loss optimizer
         :: (if (log_level w =? DEBUG)%Z then [EvSummary (model_summary lib model)] else []))%list.
Proof.
  intros Hrun. apply compile_model_success in Hrun as (Htrace & _).
  eexists _, _. exact Htrace.
Qed.

(** X3.  [compile_model] handles no exception of the library.  When the
    constructor raises, the exception comes out, [compile] is not called
    and the generator is as it was; when [compile] raises (an unknown loss
    or optimizer, say), the exception comes out after the constructor has
    run and advanced the generator, and no summary is printed. *)
Theorem compile_model_propagates_library_errors
    (input_length input_depth input_dim hidden_dim output_length output_depth
     output_dim peek attention loss optimizer : PyVal) (w : World Rng) :
  let cls := if Py.truthy attention then "AttentionSeq2Seq" else "Seq2Seq" in
  let ctor := if Py.truthy attention then AttentionSeq2Seq lib else Seq2Seq lib in
  let kwargs :=
    if Py.truthy attention
    then shared_kwargs input_length input_depth input_dim hidden_dim output_length
           output_depth output_dim
    else ("peek", peek)
         :: shared_kwargs input_length input_depth input_dim hidden_dim output_length
              output_depth output_dim in
  let run := compile_model lib input_length input_depth input_dim hidden_dim
               output_length output_depth output_dim peek attention loss optimizer w in
  (∀ e, ctor kwargs (rng w) = inl e →
        run = (inl e, mkWorld (rng w) (urandom w) (files w) (log_level w)
                        (trace w ++ [EvNew cls kwargs])))
  ∧ (∀ m r e, ctor kwargs (rng w) = inr (m, r) →
        model_compile lib m loss optimizer = inl e →
        run = (inl e, mkWorld r (urandom w) (files w) (log_level w)
                        (trace w ++ [EvNew cls kwargs; EvCompile loss optimizer]))).
Proof.
  unfold compile_model, new_network, compile, summary, shared_kwargs. resolve_names.
  destruct (Py.truthy attention); simpl;
    unfold bind, ret, emit, get_rng, put_rng, get_level, lift; simpl;
    (split; [intros e ->; reflexivity|]);
    intros m r e -> ; simpl; intros ->; simpl; rewrite <- app_assoc; reflexivity.
Qed.

(** X4.  The [attention] argument counts through its truth value alone:
    two values of the same truth value give the same outcome.  A string
    that is not empty is true, so ["false"] selects the attention network. *)
Theorem compile_model_attention_by_truth_value
    (input_length input_depth input_dim hidden_dim output_length output_depth
     output_dim peek attention attention' loss optimizer : PyVal) (w : World Rng) :
  Py.truthy attention = Py.truthy attention' →
  compile_model lib input_length input_depth input_dim hidden_dim output_length
    output_depth output_dim peek attention loss optimizer w
  = compile_model lib input_length input_depth input_dim hidden_dim output_length
      output_depth output_dim peek attention' loss optimizer w.
Proof. intros H. unfold compile_model. by rewrite H. Qed.

End FactoryMore.

Section ConstructorRuns.

Context {Model Rng : Type} (lib : Lib Model Rng).

Lemma init_run (args : gmap string PyVal) (w : World Rng) :
  Forall (λ k, is_Some (args !! k)) required_keys →
  __init__ lib args w = Construct_embedding_first lib args w.
Proof.
  intros Hkeys. unfold __init__, Construct_embedding_first. resolve_names.
  run_lookup Hkeys. rewrite bind_ret_l. run_lookup Hkeys.
  apply run_bind_ext. intros emb w1.
  run_lookup Hkeys. run_lookup Hkeys.
  apply run_bind_ext. intros _ w2. rewrite bind_ret_l.
  do 11 run_lookup Hkeys.
  unfold request_network. apply run_bind_ext. intros model w3.
  reflexivity.
Qed.

Lemma new_Glove_run (fn : PyVal) (w : World Rng) :
  new_Glove lib fn w
  = (Glove lib (files w) fn,
     mkWorld (rng w) (urandom w) (files w) (log_level w) (trace w ++ [EvGlove fn])).
Proof. unfold new_Glove. resolve_names. reflexivity. Qed.

Lemma np_random_seed_success (seed : PyVal) (w w' : World Rng) :
  np_random_seed lib seed w = (inr tt, w') →
  trace w' = (trace w ++ [EvSeed seed])%list
  ∧ log_level w' = log_level w ∧ files w' = files w ∧ urandom w' = urandom w.
Proof.
  unfold np_random_seed. resolve_names.
  unfold bind, ret, emit, get_urandom, put_rng, lift. simpl.
  destruct seed; simpl; try (destruct (seed_state lib _) as [e|r]; simpl;
    [discriminate|]); intros [= <-]; simpl; repeat split; reflexivity.
Qed.



End ConstructorRuns.


Section ConstructorResult.

Context {Model Rng : Type} (lib : Lib Model Rng).

Lemma init_attrs (args : gmap string PyVal) :
  returns (λ o : Instance Model, dom o = instance_attrs) (__init__ lib args).
Proof.
  unfold __init__.
  do 20 (apply returns_bind; intros ? ? ? _).
  apply returns_ret. unfold Instance, instance_attrs.
  rewrite !dom_insert_L, dom_empty_L. simpl. set_solver.
Qed.

(** X7.  An instance that [__init__] has built has five attributes of its
    own, [args], [sep], [emb], [epochs] and [model], and no other;
    [batch_size], which [train] reads, is not among them nor an attribute
    of the class, and reading it raises an [AttributeError]. *)
Theorem construct_sets_five_attributes (args : gmap string PyVal) (w w' : World Rng)
    (o : Instance Model) :
  __init__ lib args w = (inr o, w') →
  dom o = instance_attrs
  ∧ ∀ w1 : World Rng,
      getattr o "batch_size" w1 = (inl (AttributeError "batch_size"), w1).
Proof.
  intros Hinit. pose proof (init_attrs args w o w' Hinit) as Hdom.
  split; [exact Hdom|].
  intros w1. unfold getattr. simpl in Hdom. unfold Instance in *.
  assert (o !! "batch_size" = None) as ->.
  { apply not_elem_of_dom_1. rewrite Hdom. by vm_compute. }
  reflexivity.
Qed.

(** X8.  When [__init__] returns, the embedding table was loaded from
    [emb_fn], and the calls it made are, in this order, the load of the
    table, the seeding with [seed], the constructor of the network, with
    [batch_size] as input length, [maximum_output_length] as output length
    and the width of the table as both input and output dimension,
    [compile] with [loss] and [optimizer], and the summary when the level
    is [DEBUG]. *)
Theorem construct_calls_in_order (args : gmap string PyVal) (w w' : World Rng)
    (o : Instance Model) :
  __init__ lib args w = (inr o, w') →
  ∃ emb model,
    Glove lib (files w) (args !!! "emb_fn") = inr emb
    ∧ o = instance_of args emb model
    ∧ trace w'
      = (trace w
         ++ [EvGlove (args !!! "emb_fn"); EvSeed (args !!! "seed");
             EvNew (if Py.truthy (args !!! "attention") then "AttentionSeq2Seq"
                    else "Seq2Seq")
               ((if Py.truthy (args !!! "attention") then []
                 else [("peek", args !!! "peek")])
                ++ shared_kwargs (args !!! "batch_size") (args !!! "input_depth")
                     (PyInt (dim emb)) (args !!! "hidden_dim")
                     (args !!! "maximum_output_length") (args !!! "output_depth")
                     (PyInt (dim emb)));
             EvCompile (args !!! "loss") (args !!! "optimizer")]
         ++ (if (log_level w =? DEBUG)%Z then [EvSummary (model_summary lib model)]
             else []))%list.
Proof.
  intros Hinit.
  pose proof (init_returns_with_keys lib args w o w' Hinit) as Hkeys.
  rewrite (init_run lib args w Hkeys) in Hinit. clear Hkeys.
  unfold Construct_embedding_first, request_network in Hinit.
  unfold bind at 1 in Hinit. rewrite new_Glove_run in Hinit.
  destruct (Glove lib (files w) (args !!! "emb_fn")) as [e|emb] eqn:HG; [discriminate|].
  unfold bind at 1 in Hinit.
  destruct (np_random_seed lib _ _) as [[e|[]] w1] eqn:Hseed; [discriminate|].
  apply np_random_seed_success in Hseed as (Ht1 & Hl1 & _).
  unfold bind at 1 in Hinit.
  destruct (compile_model lib _ _ _ _ _ _ _ _ _ _ _ w1) as [[e|model] w2] eqn:Hmodel;
    [discriminate|].
  apply compile_model_success in Hmodel as (Ht2 & _).
  injection Hinit as <- <-.
  exists emb, model. split; [reflexivity|]. split; [reflexivity|].
  rewrite Ht2, Ht1, Hl1. simpl.
  destruct (Py.truthy (args !!! "attention")); simpl; rewrite <- !app_assoc; reflexivity.
Qed.


End ConstructorResult.

(** ** More on the entry point *)

(** As [emits], for a property of events that compares paths. *)
Ltac emits_paths :=
  repeat match goal with
         | |- emits_only _ (bind _ _) => apply emits_only_bind; [|intros ?]
         | |- emits_only _ (emit _) =>
             apply emits_only_emit; simpl; rewrite ?String.eqb_refl; reflexivity
         | |- emits_only _ (ret _) => apply emits_only_ret
         | |- emits_only _ (raise _) => apply emits_only_raise
         | |- emits_only _ (lift _) => apply emits_only_lift
         | |- emits_only _ get_files => apply emits_only_get_files
         | |- emits_only _ get_level => apply emits_only_get_level
         | |- emits_only _ (put_level _) => apply emits_only_put_level
         | |- emits_only _ (global_name _) => apply emits_only_global_name
         | |- emits_only _ (if ?c then _ else _) => destruct c
         | |- emits_only _ (match ?x with _ => _ end) => destruct x
         end.

Section MainMore.

Context {Model Rng : Type} (lib : Lib Model Rng).

(** X10.  Of the files named on the command line the entry point touches
    two: it opens the hyperparameter file and reads the train file as a
    table.  The dev file, the test file and the directory to save to are
    parsed and never used. *)
Theorem main_touches_train_and_hyperparams_only (argv : list string) (cli : CliArgs) :
  docopt lib __doc__ argv = inr cli →
  emits_only (touches_only cli) (main lib argv).
Proof.
  intros Hcli. unfold main. rewrite Hcli.
  change (lift (Rng:=Rng) (inr cli)) with (ret (Rng:=Rng) cli). rewrite bind_ret_l.
  unfold logging_basicConfig, logging_debug, open_read, json_load, load_dataset,
    pd_read_csv, getitem.
  emits_paths.
Qed.

(** X11.  The entry point sets the level of the root logger from the [-v]
    flag, [DEBUG] with it and [INFO] without, and without the flag it logs
    nothing. *)
Theorem main_logs_only_when_verbose (argv : list string) (cli : CliArgs) (w : World Rng) :
  docopt lib __doc__ argv = inr cli →
  log_level (snd (main lib argv w)) = (if cli_v cli then DEBUG else INFO)
  ∧ (cli_v cli = false →
     ∃ evs, trace (snd (main lib argv w)) = (trace w ++ evs)%list
            ∧ existsb is_log evs = false).
Proof.
  intros Hcli.
  unfold main, logging_basicConfig, logging_debug, open_read, json_load, getitem,
    load_dataset, pd_read_csv.
  resolve_names.
  unfold bind, ret, raise, emit, lift, get_level, put_level, get_files. simpl.
  rewrite Hcli. simpl.
  destruct (cli_v cli); simpl;
    (destruct (files w !! cli_hyperparams cli) as [content|]; simpl;
       [destruct (json_loads lib content) as [e|j]; simpl;
          [|destruct (item j "hyperparams") as [e|hp]; simpl;
              [|destruct (item hp "sep") as [e|v]; simpl]]|]);
    (split; [reflexivity|intros Hv; try discriminate Hv]);
    (eexists; split; [rewrite <- ?app_assoc; reflexivity|reflexivity]).
Qed.

(** X12.  The train file is read only once the configuration has been read
    in full: if a run of the entry point reads a table at all, then the
    hyperparameter file exists, decodes, has a ["hyperparams"] entry with a
    ["sep"] entry [v], and the one table read is the train file with
    delimiter [str(v)].  In every other case the run has raised before. *)
Theorem main_reads_dataset_only_after_configuration (argv : list string) (cli : CliArgs)
    (w : World Rng) (evs : list Event) :
  docopt lib __doc__ argv = inr cli →
  trace (snd (main lib argv w)) = (trace w ++ evs)%list →
  existsb is_read_csv evs = true →
  ∃ content j hp v,
    files w !! cli_hyperparams cli = Some content
    ∧ json_loads lib content = inr j
    ∧ item j "hyperparams" = inr hp
    ∧ item hp "sep" = inr v
    ∧ filter (λ e, is_read_csv e = true) evs
      = [EvReadCsv (cli_train cli) (Py.str v) column_names].
Proof.
  intros Hcli.
  unfold main, logging_basicConfig, logging_debug, open_read, json_load, getitem,
    load_dataset, pd_read_csv.
  resolve_names.
  unfold bind, ret, raise, emit, lift, get_level, put_level, get_files. simpl.
  rewrite Hcli. simpl.
  destruct (cli_v cli); simpl;
    (destruct (files w !! cli_hyperparams cli) as [content|] eqn:Hfile; simpl;
       [destruct (json_loads lib content) as [e|j] eqn:Hjson; simpl;
          [|destruct (item j "hyperparams") as [e|hp] eqn:Hhp; simpl;
              [|destruct (item hp "sep") as [e|v] eqn:Hsep; simpl]]|]);
    rewrite <- ?app_assoc; simpl; intros Hevs; apply app_inv_head in Hevs as <-;
    simpl; intros Hread; try discriminate Hread;
    (exists content, j, hp, v; repeat (split; [assumption || reflexivity|]);
     reflexivity).
Qed.

End MainMore.

(** ** More on the training method *)

Section TrainMore.

Context {Model Rng : Type} (lib : Lib Model Rng).

(** X13.  Binding [self] would not be enough for [train]: run with [self]
    bound to an instance, its body raises a [TypeError] at its first
    statement, where it gives [load_dataset], a static method of two
    parameters, the file name alone; no file is read. *)
Theorem train_body_with_self_fails_at_load_dataset
    (locals : gmap string (Local Model)) (o : Instance Model) (x : Local Model)
    (w : World Rng) :
  locals !! "self" = Some (LInst o) → locals !! "train_fn" = Some x →
  train_body lib locals w = (inl (TypeError "wrong number of arguments"), w).
Proof.
  intros Hself Hfn. unfold train_body, load_name. rewrite Hself, Hfn.
  rewrite bind_ret_l. simpl. rewrite bind_ret_l.
  unfold getattr. destruct (o !! "load_dataset") as [m|]; reflexivity.
Qed.

(** X14.  What [load_dataset] returns cannot be unpacked the way [train]
    unpacks it: the table has thirteen columns, and [X, Y = table] raises a
    [ValueError]. *)
Theorem load_dataset_result_does_not_unpack (fn sep : string) (w w' w1 : World Rng)
    (df : DataFrame) :
  load_dataset lib fn sep w = (inr df, w') →
  unpack2 (Model:=Model) (VFrame df) w1
  = (inl (ValueError "wrong number of values to unpack"), w1).
Proof.
  rewrite load_dataset_unfold. intros [= Hread _].
  apply read_csv_frame in Hread as (content & rs & labels & _ & _ & Hcols & _).
  unfold unpack2. rewrite Hcols. reflexivity.
Qed.

End TrainMore.

(** ** More on [load_dataset] *)

Section DatasetMore.

Context {Model Rng : Type} (lib : Lib Model Rng).

Lemma find_exists {A} (p : A → bool) (l : list A) :
  Exists (λ x, p x = true) l → ∃ x, List.find p l = Some x ∧ p x = true.
Proof.
  induction 1 as [x l Hx|x l _ IH]; simpl.
  - exists x. by rewrite Hx.
  - destruct (p x) eqn:Hp; [by exists x|exact IH].
Qed.

(** X15.  A row with more than thirteen fields, in a file whose first row
    has at most thirteen, makes [load_dataset] raise a parse error that
    expected thirteen fields. *)
Theorem load_dataset_long_row_raises (fn sep content : string) (r0 : list string)
    (rs : list (list string)) (w : World Rng) :
  files w !! fn = Some content →
  Pandas.parse_rows (read_rows lib EnginePython) sep None content = inr (r0 :: rs) →
  (length r0 ≤ 13)%nat →
  Exists (λ r, (13 < length r)%nat) rs →
  ∃ n, (13 < n)%nat ∧ fst (load_dataset lib fn sep w) = inl (ParserError 13 n).
Proof.
  intros Hfile Hrows Hfirst Hlong.
  rewrite load_dataset_unfold. simpl. unfold Pandas.read_csv.
  rewrite Hfile, Hrows. change (length column_names) with 13%nat.
  replace (length r0 - 13)%nat with 0%nat by lia. rewrite Nat.add_0_r.
  destruct (find_exists (λ r, (13 <? length r)%nat) (r0 :: rs)) as (r & -> & Hr).
  { apply Exists_cons_tl. eapply Exists_impl; [exact Hlong|].
    simpl. intros r Hr. by apply Nat.ltb_lt. }
  exists (length r). split; [by apply Nat.ltb_lt|reflexivity].
Qed.

(** X17.  A file that is absent makes [load_dataset] raise an [IOError];
    a file that is empty gives a table of the thirteen columns and no row. *)
Theorem load_dataset_absent_or_empty_file (fn sep : string) (w : World Rng) :
  (files w !! fn = None → fst (load_dataset lib fn sep w) = inl (IOError fn))
  ∧ (files w !! fn = Some "" →
     fst (load_dataset lib fn sep w) = inr (mkFrame column_names [] [])).
Proof.
  rewrite load_dataset_unfold. simpl. unfold Pandas.read_csv.
  split; intros ->; reflexivity.
Qed.

End DatasetMore.

(** ** The further theorems at the fixtures *)

Section MoreWitnesses.

Local Abbreviation w0 := (Toy.world 0 WARNING).

Lemma fixture_init :
  ∃ o w', __init__ Toy.lib Toy.args w0 = (inr o, w').
Proof. eexists _, _. vm_compute. reflexivity. Defined.

Lemma fixture_compile_model :
  ∃ m w', compile_model Toy.lib (PyInt 3) (PyInt 1) (PyInt 2) (PyInt 4) (PyInt 5) (PyInt 1)
            (PyInt 2) (PyBool false) (PyBool true) (PyStr "mse") (PyStr "adam")
            (Toy.world 0 DEBUG) = (inr m, w').
Proof. eexists _, _. vm_compute. reflexivity. Defined.

Lemma fixture_load_dataset :
  ∃ df w', load_dataset Toy.lib "train.tsv" Toy.tab w0 = (inr df, w').
Proof. eexists _, _. vm_compute. reflexivity. Defined.

Lemma construct_returns_only_with_required_keys_witness :
  ∃ o w', __init__ Toy.lib Toy.args w0 = (inr o, w')
          ∧ Forall (λ k, is_Some (Toy.args !! k)) required_keys.
Proof.
  destruct fixture_init as (o & w' & H). exists o, w'. split; [exact H|].
  exact (construct_returns_only_with_required_keys Toy.lib Toy.args w0 w' o H).
Defined.

Lemma compile_model_summary_iff_debug_witness :
  ∃ m w' cls kwargs,
    compile_model Toy.lib (PyInt 3) (PyInt 1) (PyInt 2) (PyInt 4) (PyInt 5) (PyInt 1)
      (PyInt 2) (PyBool false) (PyBool true) (PyStr "mse") (PyStr "adam")
      (Toy.world 0 DEBUG) = (inr m, w')
    ∧ trace w'
      = (trace (Toy.world 0 DEBUG) ++ EvNew cls kwargs :: EvCompile (PyStr "mse") (PyStr "adam")
           :: (if (log_level (Toy.world 0 DEBUG) =? DEBUG)%Z
               then [EvSummary (model_summary Toy.lib m)] else []))%list.
Proof.
  destruct fixture_compile_model as (m & w' & H).
  destruct (compile_model_summary_iff_debug Toy.lib _ _ _ _ _ _ _ _ _ _ _ _ _ _ H)
    as (cls & kwargs & Ht).
  exists m, w', cls, kwargs. exact (conj H Ht).
Defined.

Lemma compile_model_propagates_library_errors_witness :
  compile_model Toy.lib (PyInt 3) (PyInt 1) (PyInt 2) (PyInt 4) (PyInt 5) (PyInt 1)
    (PyInt 2) (PyBool false) (PyBool false) (PyInt 1) (PyStr "adam") w0
  = (inl (ValueError "unknown loss or optimizer"),
     mkWorld 12345 7 Toy.disk WARNING
       [EvNew "Seq2Seq"
          (("peek", PyBool false)
           :: shared_kwargs (PyInt 3) (PyInt 1) (PyInt 2) (PyInt 4) (PyInt 5) (PyInt 1)
                (PyInt 2));
        EvCompile (PyInt 1) (PyStr "adam")]).
Proof.
  apply (proj2 (compile_model_propagates_library_errors Toy.lib (PyInt 3) (PyInt 1)
                  (PyInt 2) (PyInt 4) (PyInt 5) (PyInt 1) (PyInt 2) (PyBool false)
                  (PyBool false) (PyInt 1) (PyStr "adam") w0)
           (Toy.mkNetwork "Seq2Seq"
              (("peek", PyBool false)
               :: shared_kwargs (PyInt 3) (PyInt 1) (PyInt 2) (PyInt 4) (PyInt 5)
                    (PyInt 1) (PyInt 2)) 12345 None)
           12345 (ValueError "unknown loss or optimizer"));
    vm_compute; reflexivity.
Defined.

Lemma compile_model_attention_by_truth_value_witness :
  Py.truthy (PyStr "false") = Py.truthy (PyBool true)
  ∧ compile_model Toy.lib (PyInt 3) (PyInt 1) (PyInt 2) (PyInt 4) (PyInt 5) (PyInt 1)
      (PyInt 2) (PyBool false) (PyStr "false") (PyStr "mse") (PyStr "adam") w0
    = compile_model Toy.lib (PyInt 3) (PyInt 1) (PyInt 2) (PyInt 4) (PyInt 5) (PyInt 1)
        (PyInt 2) (PyBool false) (PyBool true) (PyStr "mse") (PyStr "adam") w0.
Proof.
  split; [reflexivity|].
  apply compile_model_attention_by_truth_value. reflexivity.
Defined.



Lemma construct_sets_five_attributes_witness :
  ∃ o w', __init__ Toy.lib Toy.args w0 = (inr o, w')
          ∧ dom o = instance_attrs
          ∧ getattr o "batch_size" w' = (inl (AttributeError "batch_size"), w').
Proof.
  destruct fixture_init as (o & w' & H). exists o, w'. split; [exact H|].
  destruct (construct_sets_five_attributes Toy.lib Toy.args w0 w' o H)
    as (Hdom & Hattr).
  split; [exact Hdom|]. exact (Hattr w').
Defined.

Lemma construct_calls_in_order_witness :
  ∃ o w' emb model,
    __init__ Toy.lib Toy.args w0 = (inr o, w')
    ∧ Glove Toy.lib (files w0) (Toy.args !!! "emb_fn") = inr emb
    ∧ o = instance_of Toy.args emb model.
Proof.
  destruct fixture_init as (o & w' & H).
  destruct (construct_calls_in_order Toy.lib Toy.args w0 w' o H)
    as (emb & model & HG & Ho & _).
  exists o, w', emb, model. exact (conj H (conj HG Ho)).
Defined.



Lemma fixture_docopt :
  docopt Toy.lib __doc__ Toy.argv
  = inr (mkCli "train.tsv" "dev.tsv" "test.tsv" "model.json" "out" false).
Proof. vm_compute. reflexivity. Defined.

Lemma main_touches_train_and_hyperparams_only_witness :
  docopt Toy.lib __doc__ Toy.argv
  = inr (mkCli "train.tsv" "dev.tsv" "test.tsv" "model.json" "out" false)
  ∧ emits_only
      (touches_only (mkCli "train.tsv" "dev.tsv" "test.tsv" "model.json" "out" false))
      (main Toy.lib Toy.argv).
Proof.
  split; [exact fixture_docopt|].
  apply main_touches_train_and_hyperparams_only. exact fixture_docopt.
Defined.

Lemma main_logs_only_when_verbose_witness :
  log_level (snd (main Toy.lib Toy.argv w0)) = INFO
  ∧ ∃ evs, trace (snd (main Toy.lib Toy.argv w0)) = (trace w0 ++ evs)%list
           ∧ existsb is_log evs = false.
Proof.
  destruct (main_logs_only_when_verbose Toy.lib Toy.argv _ w0 fixture_docopt)
    as [Hlevel Hlog].
  split; [exact Hlevel|]. apply Hlog. reflexivity.
Defined.

Lemma main_reads_dataset_only_after_configuration_witness :
  ∃ content j hp v,
    files w0 !! "model.json" = Some content
    ∧ json_loads Toy.lib content = inr j
    ∧ item j "hyperparams" = inr hp
    ∧ item hp "sep" = inr v
    ∧ filter (λ e, is_read_csv e = true)
        [EvDocopt Toy.argv; EvBasicConfig INFO; EvOpen "model.json"; EvJsonLoad;
         EvReadCsv "train.tsv" Toy.tab column_names]
      = [EvReadCsv "train.tsv" (Py.str v) column_names].
Proof.
  apply (main_reads_dataset_only_after_configuration Toy.lib Toy.argv _ w0 _
           fixture_docopt); vm_compute; reflexivity.
Defined.

Lemma train_body_with_self_fails_at_load_dataset_witness :
  train_body Toy.lib
    (list_to_map [("self", LInst ∅); ("train_fn", LVal (VPy (PyStr "train.tsv")));
                  ("dev_fn", LVal (VPy (PyStr "dev.tsv")))]) w0
  = (inl (TypeError "wrong number of arguments"), w0).
Proof.
  apply (train_body_with_self_fails_at_load_dataset Toy.lib _ ∅
           (LVal (VPy (PyStr "train.tsv")))); vm_compute; reflexivity.
Defined.

Lemma load_dataset_result_does_not_unpack_witness :
  ∃ df w', load_dataset Toy.lib "train.tsv" Toy.tab w0 = (inr df, w')
           ∧ unpack2 (Model:=Toy.Network) (VFrame df) w'
             = (inl (ValueError "wrong number of values to unpack"), w').
Proof.
  destruct fixture_load_dataset as (df & w' & H). exists df, w'. split; [exact H|].
  exact (load_dataset_result_does_not_unpack Toy.lib "train.tsv" Toy.tab w0 w' w' df H).
Defined.

Lemma load_dataset_long_row_raises_witness :
  ∃ n, (13 < n)%nat
       ∧ fst (load_dataset Toy.lib "long.tsv" Toy.tab Toy.world2) = inl (ParserError 13 n).
Proof.
  eapply (load_dataset_long_row_raises Toy.lib "long.tsv" Toy.tab Toy.long_tsv).
  - vm_compute. reflexivity.
  - vm_compute. reflexivity.
  - vm_compute. lia.
  - apply Exists_cons_hd. vm_compute. lia.
Defined.

Lemma load_dataset_absent_or_empty_file_witness :
  fst (load_dataset Toy.lib "absent.tsv" Toy.tab Toy.world2) = inl (IOError "absent.tsv")
  ∧ fst (load_dataset Toy.lib "empty.tsv" Toy.tab Toy.world2)
    = inr (mkFrame column_names [] []).
Proof.
  split.
  - apply (proj1 (load_dataset_absent_or_empty_file Toy.lib "absent.tsv" Toy.tab
                    Toy.world2)). vm_compute. reflexivity.
  - apply (proj2 (load_dataset_absent_or_empty_file Toy.lib "empty.tsv" Toy.tab
                    Toy.world2)). vm_compute. reflexivity.
Defined.

End MoreWitnesses.
